(** * proscli.conductor: template resolution for the PROS command line

    A shallow embedding of [src/proscli/conductor.py].  The click commands
    [rm-depot], [download], [new] and [upgrade] are written as programs of a
    small state-and-exception monad whose state records what the command
    prints, asks and hands to the depot providers. *)

From Stdlib Require Import String Ascii List Bool Arith Lia NArith.
From Stdlib Require Import Sorting.Sorted DecimalString DecimalNat.
Import ListNotations.
Open Scope string_scope.
Open Scope list_scope.

(** ** Python strings *)

(** [str.lower()], on a string held in UTF-8.  The letters A-Z are
    lowered, and so is the Kelvin sign (U+212A, the bytes E2 84 AA), whose
    lower case is the letter k.  No other character outside ASCII has a lower
    case made of ASCII characters, so [lower s =? lit] decides
    [s.lower() == lit] for every ASCII literal [lit], which is how the source
    uses it; the other characters outside ASCII are kept as they are. *)
Definition lower_ascii (c : ascii) : ascii :=
  let n := nat_of_ascii c in
  if (65 <=? n)%nat && (n <=? 90)%nat then ascii_of_nat (n + 32) else c.

Definition is_kelvin_sign (c0 c1 c2 : ascii) : bool :=
  (nat_of_ascii c0 =? 226)%nat && (nat_of_ascii c1 =? 132)%nat
  && (nat_of_ascii c2 =? 170)%nat.

Fixpoint lower (s : string) : string :=
  match s with
  | EmptyString => EmptyString
  | String c s' =>
      match s' with
      | String c1 (String c2 s'') =>
          if is_kelvin_sign c c1 c2 then String "k" (lower s'')
          else String (lower_ascii c) (lower s')
      | _ => String (lower_ascii c) (lower s')
      end
  end.

(** [str(i)] for a list index and [int(s)] for a string of decimal digits. *)
Definition str (n : nat) : string := NilZero.string_of_uint (Nat.to_uint n).

Definition int (s : string) : option nat :=
  option_map Nat.of_uint (NilEmpty.uint_of_string s).

(** [x in xs] for a list of strings. *)
Definition mem (x : string) (xs : list string) : bool := existsb (String.eqb x) xs.

(** A string object handed to a command.  [x == 'lit'] compares characters;
    [x is 'lit'] compares objects: the literal in the function body is an
    interned constant, so [x is 'lit'] holds when [x] is the interned object
    of the same characters (as the [default=] of a click argument is) and
    fails for any other object, whatever its characters. *)
Record pystr : Type := PyStr { chars : string; interned : bool }.

Definition py_is (x : pystr) (lit : string) : bool :=
  interned x && (chars x =? lit).

(** ** [sorted(xs, key=...)] on string keys

    Python's sort is stable; keys are compared as strings, character by
    character. *)
Section Sorted.
Context {A : Type} (key : A -> string).

Fixpoint insert (x : A) (l : list A) : list A :=
  match l with
  | [] => [x]
  | y :: l' => if (key x <=? key y)%string then x :: l else y :: insert x l'
  end.

Definition sorted (l : list A) : list A := fold_right insert [] l.
End Sorted.

(** ** Data model *)

Module TemplateTypes.
Inductive t : Type := kernel | library.
End TemplateTypes.

Module DepotConfig.
Record t : Type := Build { name : string; registrar : string; location : string }.
Definition eqb (a b : t) : bool :=
  (name a =? name b) && (registrar a =? registrar b) && (location a =? location b).
End DepotConfig.

Module DepotProvider.
Record t : Type := Build { config : DepotConfig.t; registrar : string }.
Definition eqb (a b : t) : bool :=
  DepotConfig.eqb (config a) (config b) && (registrar a =? registrar b).
End DepotProvider.

Module TemplateDescriptor.
Record t : Type := Build { depot : DepotProvider.t; offline : bool; online : bool }.
Definition eqb (a b : t) : bool :=
  DepotProvider.eqb (depot a) (depot b) && Bool.eqb (offline a) (offline b)
  && Bool.eqb (online a) (online b).
End TemplateDescriptor.

(** Modelled from the spec: the class [providers.Identifier] is not part of
    the source.  The record has the attributes [conductor.py] reads from an
    identifier: [name] and [version] everywhere, [depot_registrar] and
    [depot] in [new] and [upgrade].  The last two are optional: [download]
    builds an identifier from a name and a version alone. *)
Module Identifier.
Record t : Type :=
  Build { name : string; version : string;
          depot_registrar : option string; depot : option string }.
Definition make (n v : string) : t := Build n v None None.
End Identifier.

(** [desc.depot.config.name] *)
Definition depot_name (desc : TemplateDescriptor.t) : string :=
  DepotConfig.name (DepotProvider.config (TemplateDescriptor.depot desc)).

(** The listing of one template type: a dict from identifier to the
    descriptors offering it, in iteration order. *)
Definition Listing : Type := list (Identifier.t * list TemplateDescriptor.t).

(** What a command reads through [cfg.pros_cfg]: the templates in local
    storage and the listing aggregated from the registered depots. *)
Record Config : Type :=
  { get_local_templates : TemplateTypes.t -> list Identifier.t;
    get_available_templates : TemplateTypes.t -> Listing }.

(** ** Effects *)

Inductive event : Type :=
| Echo (s : string)
| Debug (s : string)
| EchoTable (rows : list (nat * string)) (headers : list string)
| Prompt (text default : string) (choices : list string)
| Download (identifier : Identifier.t) (depot : DepotProvider.t)
| CreateProject (identifier : Identifier.t) (dest : string)
| UpgradeProject (identifier : Identifier.t) (dest : string)
| Delete (depot : DepotConfig.t).

Inductive exn : Type :=
| Abort
| BadParameter (message : string)
| AttributeError (type attribute : string)
| NameError (variable : string)
| IndexError
| KeyError
| ValueError
| DepotNotFound (name : string).

Inductive result (A : Type) : Type :=
| Ok (a : A)
| Raise (e : exn).
Arguments Ok {A} a.
Arguments Raise {A} e.

(** [trace]: what the command has done so far, oldest first; [stdin]: the
    lines the user will type; [depots]: the depot registry. *)
Record world : Type :=
  World { trace : list event; stdin : list string; depots : list DepotConfig.t }.

Definition M (A : Type) : Type := world -> result A * world.

Definition ret {A} (a : A) : M A := fun w => (Ok a, w).

Definition bind {A B} (m : M A) (k : A -> M B) : M B :=
  fun w => match m w with
           | (Ok a, w') => k a w'
           | (Raise e, w') => (Raise e, w')
           end.

Definition raise {A} (e : exn) : M A := fun w => (Raise e, w).

Declare Scope py_scope.
Delimit Scope py_scope with py.
Notation "x <- m ;; k" := (bind m (fun x => k))
  (at level 61, m at next level, right associativity) : py_scope.
Notation "' pat <- m ;; k" := (bind m (fun x => match x with pat => k end))
  (at level 61, pat pattern, m at next level, right associativity) : py_scope.
Notation "m ;; k" := (bind m (fun _ => k))
  (at level 61, right associativity) : py_scope.
Open Scope py_scope.

Definition emit (e : event) : M unit :=
  fun w => (Ok tt, World (trace w ++ [e]) (stdin w) (depots w)).

Definition echo (s : string) : M unit := emit (Echo s).
Definition debug (s : string) : M unit := emit (Debug s).

(** [click.get_current_context().abort()] *)
Definition abort {A} : M A := raise Abort.

Definition when (b : bool) (m : M unit) : M unit := if b then m else ret tt.

(** [xs[n]] *)
Definition getitem {A} (xs : list A) (n : nat) : M A :=
  match nth_error xs n with
  | Some x => ret x
  | None => raise IndexError
  end.

(** [OrderedDict(items).popitem()]: the last pair.  The items come out of
    a dict, so no key occurs twice. *)
Definition popitem {A} (items : list A) : M A :=
  match rev items with
  | x :: _ => ret x
  | [] => raise KeyError
  end.

(** [xs.index(x)] *)
Fixpoint index_from {A} (eqb : A -> A -> bool) (x : A) (xs : list A) (n : nat) : M nat :=
  match xs with
  | [] => raise ValueError
  | y :: xs' => if eqb y x then ret n else index_from eqb x xs' (S n)
  end.

Definition index {A} (eqb : A -> A -> bool) (xs : list A) (x : A) : M nat :=
  index_from eqb x xs 0.

(** [[f(x) for x in xs]] and [[x for x in xs if p(x)]] where [f], [p] may
    raise. *)
Fixpoint mapM {A B} (f : A -> M B) (xs : list A) : M (list B) :=
  match xs with
  | [] => ret []
  | x :: xs' => y <- f x ;; ys <- mapM f xs' ;; ret (y :: ys)
  end.

Fixpoint filterM {A} (p : A -> M bool) (xs : list A) : M (list A) :=
  match xs with
  | [] => ret []
  | x :: xs' => b <- p x ;; ys <- filterM p xs' ;; ret (if b then x :: ys else ys)
  end.

(** Reading a local variable that an earlier branch may have left
    unassigned. *)
Definition load {A} (variable : string) (v : option A) : M A :=
  match v with
  | Some a => ret a
  | None => raise (NameError variable)
  end.

(** [click.prompt(text, default=..., type=click.Choice(choices))]: an empty
    line takes the default, a line that is not a choice is asked again, and
    the end of the input aborts. *)
Fixpoint read_choice (default : string) (choices : list string) (lines : list string)
  : result string * list string :=
  match lines with
  | [] => (Raise Abort, [])
  | l :: rest =>
      let value := if l =? "" then default else l in
      if mem value choices then (Ok value, rest) else read_choice default choices rest
  end.

Definition click_prompt (text default : string) (choices : list string) : M string :=
  emit (Prompt text default choices) ;;
  fun w => let (r, rest) := read_choice default choices (stdin w) in
           (r, World (trace w) rest (depots w)).

(** [for x in xs: body(x)] *)
Fixpoint for_each {A} (xs : list A) (body : A -> M unit) : M unit :=
  match xs with
  | [] => ret tt
  | x :: xs' => body x ;; for_each xs' body
  end.

(** ** The depot registry *)

(** [utils.get_depot_configs(cfg.pros_cfg)] *)
Definition get_depot_configs : M (list DepotConfig.t) :=
  fun w => (Ok (depots w), w).

(** Modelled from the spec: [DepotConfig.delete] is not part of the source;
    deleting a depot removes it from the registry. *)
Definition delete (d : DepotConfig.t) : M unit :=
  fun w => (Ok tt, World (trace w ++ [Delete d]) (stdin w)
                         (filter (fun d' => negb (DepotConfig.eqb d' d)) (depots w))).

(** Modelled from the spec: [utils.get_depot_config] and [utils.get_depot]
    are not part of the source; the registry finds a depot by name or
    reports that there is none, and the provider of a depot carries its
    configuration and the name of its registrar. *)
Definition get_depot_config (name : string) : M DepotConfig.t :=
  fun w => match find (fun d => DepotConfig.name d =? name) (depots w) with
           | Some d => (Ok d, w)
           | None => (Raise (DepotNotFound name), w)
           end.

Definition get_depot (c : DepotConfig.t) : DepotProvider.t :=
  DepotProvider.Build c (DepotConfig.registrar c).

(** [rm-depot] *)
Definition remove_depot (name : string) : M unit :=
  (if name =? "purdueros-mainline"
   then raise (BadParameter "Cannot delete purdueros-mainline!")
   else ret tt) ;;
  ds <- get_depot_configs ;;
  for_each (filter (fun d => DepotConfig.name d =? name) ds)
    (fun depot =>
       echo ("Removing " ++ DepotConfig.name depot ++ " (" ++ DepotConfig.location depot ++ ")") ;;
       delete depot).

(** ** [add-depot]: the check of the name *)

(** [str.strip()], on the ASCII blanks. *)
Definition is_blank (c : ascii) : bool :=
  let n := nat_of_ascii c in
  (n =? 32)%nat || ((9 <=? n)%nat && (n <=? 13)%nat)
  || ((28 <=? n)%nat && (n <=? 31)%nat).

Fixpoint lstrip (s : string) : string :=
  match s with
  | EmptyString => EmptyString
  | String c s' => if is_blank c then lstrip s' else s
  end.

Fixpoint rstrip (s : string) : string :=
  match s with
  | EmptyString => EmptyString
  | String c s' =>
      match rstrip s' with
      | EmptyString => if is_blank c then EmptyString else String c EmptyString
      | rest => String c rest
      end
  end.

Definition strip (s : string) : string := rstrip (lstrip s).

(** [click.confirm(text, default=..., abort=...)]: the answer is lowered
    and stripped; y and yes accept, n and no decline, the empty answer takes
    the default, anything else is asked again, and the end of the input
    aborts; with [abort], declining aborts too. *)
Fixpoint read_confirm (default : bool) (lines : list string) : result bool * list string :=
  match lines with
  | [] => (Raise Abort, [])
  | l :: rest =>
      let value := strip (lower l) in
      if mem value ["y"; "yes"] then (Ok true, rest)
      else if mem value ["n"; "no"] then (Ok false, rest)
      else if value =? "" then (Ok default, rest)
      else read_confirm default rest
  end.

Definition click_confirm (text : string) (default abort : bool) : M bool :=
  emit (Prompt text (if default then "Y/n" else "y/N") ["y"; "yes"; "n"; "no"]) ;;
  rv <- (fun w => let (r, rest) := read_confirm default (stdin w) in
                  (r, World (trace w) rest (depots w))) ;;
  if abort && negb rv then raise Abort else ret rv.

Definition msg_overwrite (value : string) : string :=
  "A depot with the name " ++ value ++ " already exists. Do you want to overwrite it?".

Section AddDepot.
(** [os.path.isdir], [os.path.join] and [ctx.obj.pros_cfg.directory] *)
Variable isdir : string -> bool.
Variable join : string -> string -> string.
Variable directory : string.

(** The callback of the option [--name] of [add-depot]. *)
Definition validate_name (value : string) : M string :=
  (if isdir (join directory value) then
     (if value =? "purdueros-mainline"
      then raise (BadParameter "Cannot override purdueros-mainline!")
      else ret tt) ;;
     _ <- click_confirm (msg_overwrite value) true true ;;
     ret tt
   else ret tt) ;;
  ret value.
End AddDepot.

(** ** [download] *)

(** The messages of [download]. *)
Definition msg_fetching : string :=
  "Fetching online listing to verify available templates.".
Definition msg_no_name (name : string) : string :=
  "No templates were found with the name " ++ name.
Definition msg_no_depot (name depot : string) : string :=
  "No templates for " ++ name ++ " were found on " ++ depot.
Definition msg_resolved (name version iname iversion : string) : string :=
  "Resolved " ++ name ++ " " ++ version ++ " to " ++ iname ++ " " ++ iversion.
Definition msg_no_version (name version : string) : string :=
  "No templates for " ++ name ++ " were found with the version " ++ version.
Definition msg_multiple (iname iversion : string) : string :=
  "Multiple depots for " ++ iname ++ "-" ++ iversion ++ " were found. Please specify a depot: ".
Definition msg_no_download_depot (name version : string) : string :=
  "Could not find a depot to download " ++ name ++ " " ++ version.
Definition msg_downloading (iname iversion dname dregistrar : string) : string :=
  "Downloading " ++ iname ++ " " ++ iversion ++ " from " ++ dname ++ " using " ++ dregistrar.

(** Lines 125-130: the aliases of the kernel. *)
Definition normalize (name version : string) : string * string :=
  if lower name =? "kernel" then ("kernel", version)
  else if name =? "latest" then ("kernel", if version =? "kernel" then "latest" else version)
  else (name, version).

(** The value bound to the variable [descriptor]: one branch binds a
    descriptor, another the list a comprehension builds. *)
Inductive descriptor_value : Type :=
| Descriptor (d : TemplateDescriptor.t)
| DescriptorList (ds : list TemplateDescriptor.t).

(** [descriptor.depot] *)
Definition getattr_depot (v : descriptor_value) : M DepotProvider.t :=
  match v with
  | Descriptor d => ret (TemplateDescriptor.depot d)
  | DescriptorList _ => raise (AttributeError "list" "depot")
  end.

Definition template_type (name : string) : TemplateTypes.t :=
  if name =? "kernel" then TemplateTypes.kernel else TemplateTypes.library.

(** Lines 144-150: an explicit depot narrows the listing. *)
Definition filter_depot (name depot : string) (listing : Listing) : M Listing :=
  if negb (depot =? "auto") then
    when (negb (mem depot (flat_map (fun '(_, ds) => map depot_name ds) listing)))
         (echo (msg_no_depot name depot) ;; abort) ;;
    ret (map (fun '(i, ds) => (i, filter (fun d => depot_name d =? depot) ds))
             (filter (fun '(i, ds) => mem depot (map depot_name ds)) listing))
  else ret listing.

(** Lines 154-162: the identifier and its descriptors. *)
Definition select_version (name version : string) (listing : Listing)
  : M (Identifier.t * list TemplateDescriptor.t) :=
  if version =? "latest" then
    '(identifier, descriptors) <-
       popitem (sorted (fun kvp => Identifier.version (fst kvp)) listing) ;;
    echo (msg_resolved name version (Identifier.name identifier)
                       (Identifier.version identifier)) ;;
    ret (identifier, descriptors)
  else
    when (negb (mem version (map (fun '(i, d) => Identifier.version i) listing)))
         (echo (msg_no_version name version) ;; abort) ;;
    getitem (filter (fun '(i, d) => Identifier.version i =? version) listing) 0.

(** Lines 174-184: the user chooses among several depots. *)
Definition ask_depot (identifier : Identifier.t) (descriptors : list TemplateDescriptor.t)
  : M descriptor_value :=
  echo (msg_multiple (Identifier.name identifier) (Identifier.version identifier)) ;;
  rows <- mapM (fun desc => i <- index TemplateDescriptor.eqb descriptors desc ;;
                            ret (i, depot_name desc)) descriptors ;;
  let options_table := sorted snd rows in
  emit (EchoTable options_table [""; "Depot"]) ;;
  first <- getitem options_table 0 ;;
  result <- click_prompt "Which depot?" (snd first)
              (map (fun '(i, n) => str i) options_table
               ++ map (fun '(i, n) => n) options_table) ;;
  if mem result (map (fun '(i, n) => str i) options_table) then
    n <- match int result with Some n => ret n | None => raise ValueError end ;;
    row <- getitem options_table n ;;
    d <- getitem (filter (fun d => depot_name d =? snd row) descriptors) 0 ;;
    ret (Descriptor d)
  else
    d <- getitem (filter (fun d => depot_name d =? result) descriptors) 0 ;;
    ret (Descriptor d).

(** Lines 165-190: from the descriptors of the identifier to one depot. *)
Definition select_descriptor (name version depot : string) (identifier : Identifier.t)
    (descriptors : list TemplateDescriptor.t) : M descriptor_value :=
  when (length descriptors =? 0)%nat (echo (msg_no_version name version) ;; abort) ;;
  if (1 <? length descriptors)%nat then
    if (name =? "kernel") && (depot =? "auto")
       && mem "purdueros-mainline" (map depot_name descriptors)
    then ret (DescriptorList
                (filter (fun desc => depot_name desc =? "purdueros-mainline") descriptors))
    else ask_depot identifier descriptors
  else
    d0 <- getitem descriptors 0 ;;
    if (depot =? "auto") || (depot_name d0 =? depot) then ret (Descriptor d0)
    else echo (msg_no_download_depot name version) ;; abort.

Definition download (cfg : Config) (name version depot : string) (no_check : bool) : M unit :=
  let '(name, version) := normalize name version in
  '(identifier, descriptor) <-
    (if (version =? "latest") || (depot =? "auto") || negb no_check then
       echo msg_fetching ;;
       let listing := get_available_templates cfg (template_type name) in
       let listing := filter (fun '(i, d) => Identifier.name i =? name) listing in
       when (length listing =? 0)%nat (echo (msg_no_name name) ;; abort) ;;
       listing <- filter_depot name depot listing ;;
       '(identifier, descriptors) <- select_version name version listing ;;
       descriptor <- select_descriptor name version depot identifier descriptors ;;
       ret (identifier, descriptor)
     else
       let identifier := Identifier.make name version in
       c <- get_depot_config depot ;;
       ret (identifier, Descriptor (TemplateDescriptor.Build (get_depot c) false true))) ;;
  d <- getattr_depot descriptor ;;
  echo (msg_downloading (Identifier.name identifier) (Identifier.version identifier)
                        (DepotConfig.name (DepotProvider.config d))
                        (DepotProvider.registrar d)) ;;
  emit (Download identifier d).

(** ** [new] and [upgrade] *)

(** An attribute that holds a string or [None]: how it prints, how it
    compares with a string and with another such value. *)
Definition show (v : option string) : string :=
  match v with Some s => s | None => "None" end.

Definition value_eqb (a b : option string) : bool :=
  match a, b with
  | Some x, Some y => x =? y
  | None, None => true
  | _, _ => false
  end.

Definition mem_value (v : option string) (vs : list (option string)) : bool :=
  existsb (value_eqb v) vs.

Definition msg_none_downloaded : string :=
  "No templates have been downloaded! Use `pros conduct download` to download the latest kernel.".
Definition msg_resolved_version (kernel kernel_version : string) : string :=
  "Resolved version " ++ kernel ++ " to " ++ kernel_version.
Definition msg_none_exist (kernel_version : string) : string :=
  "No templates exist for " ++ kernel_version.
Definition msg_resolved_depot (depot depot_registrar : string) : string :=
  "Resolved depot " ++ depot ++ " to " ++ depot_registrar.
Definition msg_none_on_depot (kernel_version depot_registrar : string) : string :=
  "No templates were found for kernel version " ++ kernel_version ++ " on " ++ depot_registrar.
Definition msg_creating (version depot_registrar location : string) : string :=
  "Creating new project from " ++ version ++ " on " ++ depot_registrar ++ " at " ++ location.

Section LocalMode.
(** [os.path.isabs] and [os.path.abspath] *)
Variable isabs : string -> bool.
Variable abspath : string -> string.

(** The command [new]. *)
Definition new (cfg : Config) (kernel : pystr) (location : string) (depot : pystr)
  : M unit :=
  let templates := get_local_templates cfg TemplateTypes.kernel in
  when (length templates =? 0)%nat (echo msg_none_downloaded ;; abort) ;;
  kernel_version <-
    (if py_is kernel "latest" then
       t <- getitem (sorted Identifier.version templates) 0 ;;
       debug (msg_resolved_version (chars kernel) (Identifier.version t)) ;;
       ret (Identifier.version t)
     else ret (chars kernel)) ;;
  let templates := filter (fun t => Identifier.version t =? kernel_version) templates in
  '(templates, depot_registrar) <-
    (if py_is depot "auto" then
       let templates :=
         filter (fun t => Identifier.version t =? kernel_version) templates in
       when (length templates =? 0)%nat (echo (msg_none_exist kernel_version) ;; abort) ;;
       depot_registrar <-
         (if mem_value (Some "purdueros-mainline")
                       (map Identifier.depot_registrar templates)
          then ret (Some "purdueros-mainline")
          else getitem (map Identifier.depot templates) 0) ;;
       debug (msg_resolved_depot (chars depot) (show depot_registrar)) ;;
       ret (templates, Some depot_registrar)
     else ret (templates, None)) ;;
  templates <-
    filterM (fun t => r <- load "depot_registrar" depot_registrar ;;
                      ret (value_eqb (Identifier.depot_registrar t) r)) templates ;;
  when (length templates =? 0)%nat
       (r <- load "depot_registrar" depot_registrar ;;
        echo (msg_none_on_depot kernel_version (show r))) ;;
  template <- getitem templates 0 ;;
  let location := if negb (isabs location) then abspath location else location in
  echo (msg_creating (Identifier.version template)
                     (show (Identifier.depot_registrar template)) location) ;;
  emit (CreateProject template location).

(** The command [upgrade]; the source names this function [new] as well. *)
Definition upgrade (cfg : Config) (kernel : pystr) (location : string) (depot : pystr)
  : M unit :=
  let templates := get_local_templates cfg TemplateTypes.kernel in
  when (length templates =? 0)%nat (echo msg_none_downloaded ;; abort) ;;
  kernel_version <-
    (if py_is kernel "latest" then
       t <- getitem (sorted Identifier.version templates) 0 ;;
       debug (msg_resolved_version (chars kernel) (Identifier.version t)) ;;
       ret (Identifier.version t)
     else ret (chars kernel)) ;;
  let templates := filter (fun t => Identifier.version t =? kernel_version) templates in
  '(templates, depot_registrar) <-
    (if py_is depot "auto" then
       let templates :=
         filter (fun t => Identifier.version t =? kernel_version) templates in
       when (length templates =? 0)%nat (echo (msg_none_exist kernel_version) ;; abort) ;;
       depot_registrar <-
         (if mem_value (Some "purdueros-mainline")
                       (map Identifier.depot_registrar templates)
          then ret (Some "purdueros-mainline")
          else getitem (map Identifier.depot templates) 0) ;;
       debug (msg_resolved_depot (chars depot) (show depot_registrar)) ;;
       ret (templates, Some depot_registrar)
     else ret (templates, None)) ;;
  templates <-
    filterM (fun t => r <- load "depot_registrar" depot_registrar ;;
                      ret (value_eqb (Identifier.depot_registrar t) r)) templates ;;
  when (length templates =? 0)%nat
       (r <- load "depot_registrar" depot_registrar ;;
        echo (msg_none_on_depot kernel_version (show r))) ;;
  template <- getitem templates 0 ;;
  let location := if negb (isabs location) then abspath location else location in
  echo (msg_creating (Identifier.version template)
                     (show (Identifier.depot_registrar template)) location) ;;
  emit (UpgradeProject template location).
End LocalMode.

(** * Vocabulary of the statements *)

(** The world after a command has added [evs] to the trace. *)
Definition after (w : world) (evs : list event) : world :=
  World (trace w ++ evs) (stdin w) (depots w).

(** The version lines 217-220 (and 265-268) resolve. *)
Definition resolved_version (templates : list Identifier.t) (kernel : pystr) : string :=
  if py_is kernel "latest" then
    match sorted Identifier.version templates with
    | t :: _ => Identifier.version t
    | [] => chars kernel
    end
  else chars kernel.

Definition version_events (templates : list Identifier.t) (kernel : pystr) : list event :=
  if py_is kernel "latest"
  then [Debug (msg_resolved_version (chars kernel) (resolved_version templates kernel))]
  else [].

(** The templates of the resolved version. *)
Definition hosts (templates : list Identifier.t) (kernel : pystr) : list Identifier.t :=
  filter (fun t => Identifier.version t =? resolved_version templates kernel) templates.

Definition is_prompt (e : event) : bool :=
  match e with Prompt _ _ _ => true | _ => false end.

(** Whether the command asked the user anything. *)
Definition asked (evs : list event) : bool := existsb is_prompt evs.

(** Lines 228-231 (and 276-279): the depot the command settles on among
    the templates [H] of the resolved version. *)
Definition chosen_depot (H : list Identifier.t) : option string :=
  if mem_value (Some "purdueros-mainline") (map Identifier.depot_registrar H)
  then Some "purdueros-mainline"
  else match H with t0 :: _ => Identifier.depot t0 | [] => None end.

(** The names of the depots that offer something in the listing. *)
Definition depot_names (listing : Listing) : list string :=
  flat_map (fun '(_, ds) => map depot_name ds) listing.

(** The listing an explicit depot leaves. *)
Definition on_depot (depot : string) (listing : Listing) : Listing :=
  map (fun '(i, ds) => (i, filter (fun d => depot_name d =? depot) ds))
      (filter (fun '(i, ds) => mem depot (map depot_name ds)) listing).

(** A list with the position of each element, counted from [n]. *)
Definition numbered {A} (n : nat) (l : list A) : list (nat * A) :=
  combine (seq n (length l)) l.

(** The table of the prompt: each depot name with the position of its
    descriptor, in the order of the names. *)
Definition depot_table (ds : list TemplateDescriptor.t) : list (nat * string) :=
  sorted snd (numbered 0 (map depot_name ds)).

(** What [ask_depot] prints before it reads the answer. *)
Definition asking (identifier : Identifier.t) (descriptors : list TemplateDescriptor.t)
    (first : nat * string) : list event :=
  [Echo (msg_multiple (Identifier.name identifier) (Identifier.version identifier));
   EchoTable (depot_table descriptors) [""; "Depot"];
   Prompt "Which depot?" (snd first)
          (map (fun '(i, n) => str i) (depot_table descriptors)
           ++ map (fun '(i, n) => n) (depot_table descriptors))].

(** The listing [download] works on: the identifiers of the requested
    name, with their descriptors (lines 134-138). *)
Definition named (name : string) (cfg : Config) : Listing :=
  filter (fun '(i, d) => Identifier.name i =? name)
         (get_available_templates cfg (template_type name)).

(** ** What a command may do to the world *)

(** How the input stands after a step that may ([reads = true]) or may not
    read it: some of its first lines are gone, or none. *)
Definition input_left (reads : bool) (before after_ : list string) : Prop :=
  if reads then exists read, before = read ++ after_ else before = after_.

(** [grows P reads w w']: from [w] to [w'] the registry is the same, the
    input has only been read (not at all when [reads] is false), and the
    trace has grown by events that satisfy [P]. *)
Definition grows (P : event -> bool) (reads : bool) (w w' : world) : Prop :=
  depots w' = depots w
  /\ input_left reads (stdin w) (stdin w')
  /\ exists evs, trace w' = trace w ++ evs /\ forallb P evs = true.

(** A computation all of whose runs, failed or not, only do that. *)
Definition framed (P : event -> bool) (reads : bool) {A} (m : M A) : Prop :=
  forall w r w', m w = (r, w') -> grows P reads w w'.

(** The events that only talk to the user. *)
Definition is_message (e : event) : bool :=
  match e with Echo _ | Debug _ => true | _ => false end.

Definition is_dialogue (e : event) : bool :=
  match e with Echo _ | Debug _ | EchoTable _ _ | Prompt _ _ _ => true | _ => false end.

(** [acts P act m]: every run of [m] only talks, with events that satisfy
    [P] and without reading the input or touching the registry, and then,
    when and only when it succeeds, does one thing: an event that satisfies
    [act]. *)
Definition acts (P act : event -> bool) (m : M unit) : Prop :=
  forall w r w',
    m w = (r, w') ->
    exists talk,
      forallb P talk = true
      /\ match r with
         | Ok _ => exists a, act a = true /\ w' = after w (talk ++ [a])
         | Raise _ => w' = after w talk
         end.

Definition is_create (e : event) : bool :=
  match e with CreateProject _ _ => true | _ => false end.

Definition is_upgrade (e : event) : bool :=
  match e with UpgradeProject _ _ => true | _ => false end.

(** The destination of lines 237-238 (285-286). *)
Definition destination (isabs : string -> bool) (abspath : string -> string)
    (location : string) : string :=
  if negb (isabs location) then abspath location else location.

(** What [new] and [upgrade] print when the depot is the "auto" object and
    the resolved version is stored, up to the depot filter. *)
Definition resolution_events (templates : list Identifier.t) (kernel depot : pystr)
  : list event :=
  version_events templates kernel
  ++ [Debug (msg_resolved_depot (chars depot)
               (show (chosen_depot (hosts templates kernel))))].

(** The templates the depot filter of line 233 (281) keeps. *)
Definition on_chosen_depot (templates : list Identifier.t) (kernel : pystr)
  : list Identifier.t :=
  filter (fun t => value_eqb (Identifier.depot_registrar t)
                             (chosen_depot (hosts templates kernel)))
         (hosts templates kernel).

(** What [rm-depot] does for one depot. *)
Definition removal (d : DepotConfig.t) : list event :=
  [Echo ("Removing " ++ DepotConfig.name d ++ " (" ++ DepotConfig.location d ++ ")");
   Delete d].

(** ** Sample catalogs *)

Definition provider (name : string) : DepotProvider.t :=
  get_depot (DepotConfig.Build name "github-releases" ("https://github.com/" ++ name)).

Definition offer (name : string) : TemplateDescriptor.t :=
  TemplateDescriptor.Build (provider name) false true.

Definition stored (version depot : string) : Identifier.t :=
  Identifier.Build "kernel" version (Some depot) (Some depot).

Definition online_catalog (l : Listing) : Config :=
  {| get_local_templates := fun _ => [];
     get_available_templates :=
       fun t => match t with TemplateTypes.kernel => l | TemplateTypes.library => [] end |}.

Definition local_catalog (l : list Identifier.t) : Config :=
  {| get_local_templates :=
       fun t => match t with TemplateTypes.kernel => l | TemplateTypes.library => [] end;
     get_available_templates := fun _ => [] |}.

(** A fresh run: nothing printed yet, the user will type [lines], and the
    registry holds the mainline depot and one more. *)
Definition fresh (lines : list string) : world :=
  World [] lines
        [DepotConfig.Build "purdueros-mainline" "github-releases"
                           "https://github.com/purdueros-mainline";
         DepotConfig.Build "alt" "github-releases" "https://github.com/alt"].

Definition posix_isabs (path : string) : bool := String.prefix "/" path.
Definition posix_abspath (path : string) : string := "/home/user/" ++ path.

(** The catalog of the end-to-end scenarios: kernel 1.0.0 on the mainline
    depot and on alt, kernel 1.1.0 on alt only. *)
Definition scenario : Listing :=
  [(Identifier.make "kernel" "1.0.0", [offer "purdueros-mainline"; offer "alt"]);
   (Identifier.make "kernel" "1.1.0", [offer "alt"])].

(** Versions 1.0.0, 1.2.0 and 1.1.5 of the kernel, on one depot. *)
Definition three_versions : Listing :=
  [(Identifier.make "kernel" "1.0.0", [offer "purdueros-mainline"]);
   (Identifier.make "kernel" "1.2.0", [offer "purdueros-mainline"]);
   (Identifier.make "kernel" "1.1.5", [offer "purdueros-mainline"])].

Definition three_stored : list Identifier.t :=
  [stored "1.0.0" "purdueros-mainline"; stored "1.2.0" "purdueros-mainline";
   stored "1.1.5" "purdueros-mainline"].

(** One kernel on two depots, neither the mainline one, listed with zeta
    before alpha. *)
Definition two_depots : Listing :=
  [(Identifier.make "kernel" "1.0.0", [offer "zeta"; offer "alpha"])].

(** The default of a click argument: the object of the literal itself. *)
Definition default (s : string) : pystr := PyStr s true.

(** An argument typed on the command line: an object of its own. *)
Definition typed (s : string) : pystr := PyStr s false.

(** Kernel 1.0.0 stored from alt and from the mainline depot, alt first. *)
Definition stored_twice : list Identifier.t :=
  [stored "1.0.0" "alt"; stored "1.0.0" "purdueros-mainline"].

(** A stored kernel whose two depot attributes differ. *)
Definition stored_apart : list Identifier.t :=
  [Identifier.Build "kernel" "1.0.0" (Some "alt") (Some "mirror")].

(** Kernel 1.0.0 stored twice: first a template registered with alt whose
    [depot] attribute is beta, then one from beta. *)
Definition stored_crossed : list Identifier.t :=
  [Identifier.Build "kernel" "1.0.0" (Some "alt") (Some "beta"); stored "1.0.0" "beta"].

(** A listing of libraries, and a kernel that no depot offers any more. *)
Definition libraries : Config :=
  {| get_local_templates := fun _ => [];
     get_available_templates :=
       fun t => match t with
                | TemplateTypes.kernel => []
                | TemplateTypes.library => [(Identifier.make "libblrs" "1.0.0", [offer "alt"])]
                end |}.

Definition orphan : Listing := [(Identifier.make "kernel" "1.0.0", [])].

Definition always (path : string) : bool := true.
Definition slash (a b : string) : string := a ++ "/" ++ b.

(** * Properties *)

(** ** The order on strings *)

Lemma compare_not_Gt_trans (a b c : string) :
  String.compare a b <> Gt -> String.compare b c <> Gt -> String.compare a c <> Gt.
Proof.
  revert b c. induction a as [|x a IH]; intros b c Hab Hbc.
  - destruct c; simpl; discriminate.
  - destruct b as [|y b]; [simpl in Hab; congruence|].
    destruct c as [|z c]; [simpl in Hbc; congruence|].
    simpl in *. unfold Ascii.compare in *.
    destruct (N.compare_spec (N_of_ascii x) (N_of_ascii y)) as [Exy|Lxy|Gxy];
      try congruence;
      destruct (N.compare_spec (N_of_ascii y) (N_of_ascii z)) as [Eyz|Lyz|Gyz];
      try congruence.
    + rewrite Exy, Eyz, N.compare_refl. now apply IH with b.
    + rewrite Exy. apply N.compare_lt_iff in Lyz. rewrite Lyz. discriminate.
    + rewrite <- Eyz. apply N.compare_lt_iff in Lxy. rewrite Lxy. discriminate.
    + assert (H : (N_of_ascii x < N_of_ascii z)%N) by lia.
      apply N.compare_lt_iff in H. rewrite H. discriminate.
Qed.

Lemma leb_trans (a b c : string) :
  (a <=? b)%string = true -> (b <=? c)%string = true -> (a <=? c)%string = true.
Proof.
  unfold String.leb. intros Hab Hbc.
  assert (H : String.compare a c <> Gt).
  { apply compare_not_Gt_trans with b.
    - destruct (String.compare a b); congruence.
    - destruct (String.compare b c); congruence. }
  destruct (String.compare a c); congruence.
Qed.

Lemma leb_refl (a : string) : (a <=? a)%string = true.
Proof. destruct (String.leb_total a a); assumption. Qed.

(** ** [sorted] *)

Section SortedFacts.
Context {A : Type} (key : A -> string).

Definition key_le (x y : A) : Prop := (key x <=? key y)%string = true.

Lemma in_insert (x y : A) (l : list A) : In y (insert key x l) <-> y = x \/ In y l.
Proof.
  induction l as [|z l IH]; simpl.
  - intuition.
  - destruct (key x <=? key z)%string; simpl; [intuition|].
    rewrite IH. intuition.
Qed.

Lemma in_sorted (y : A) (l : list A) : In y (sorted key l) <-> In y l.
Proof.
  induction l as [|x l IH]; simpl; [tauto|].
  rewrite in_insert, IH. intuition.
Qed.

Lemma insert_sorted (x : A) (l : list A) :
  StronglySorted key_le l -> StronglySorted key_le (insert key x l).
Proof.
  induction 1 as [|z l Hs IH Hz]; simpl.
  - repeat constructor.
  - destruct (key x <=? key z)%string eqn:E.
    + constructor; [now constructor|].
      constructor; [exact E|].
      apply Forall_forall. intros y Hy.
      rewrite Forall_forall in Hz. apply leb_trans with (key z); auto.
      now apply Hz.
    + constructor; [exact IH|].
      apply Forall_forall. intros y Hy. apply in_insert in Hy.
      destruct Hy as [->|Hy].
      * destruct (String.leb_total (key x) (key z)); [congruence|assumption].
      * rewrite Forall_forall in Hz. now apply Hz.
Qed.

Lemma sorted_sorted (l : list A) : StronglySorted key_le (sorted key l).
Proof.
  induction l; simpl; [constructor|now apply insert_sorted].
Qed.

Lemma sorted_nil_iff (l : list A) : sorted key l = [] <-> l = [].
Proof.
  split; [|now intros ->].
  destruct l as [|x l]; [reflexivity|].
  intros H. assert (Hin : In x (sorted key (x :: l))) by (apply in_sorted; now left).
  rewrite H in Hin. destruct Hin.
Qed.

(** The first element of [sorted] has the least key. *)
Lemma sorted_head_least (l : list A) (x : A) (rest : list A) :
  sorted key l = x :: rest -> In x l /\ forall y, In y l -> key_le x y.
Proof.
  intros E. split.
  - apply in_sorted. rewrite E. now left.
  - intros y Hy. apply in_sorted in Hy. rewrite E in Hy.
    pose proof (sorted_sorted l) as Hs. rewrite E in Hs.
    inversion Hs as [|? ? _ Hall]; subst.
    destruct Hy as [->|Hy]; [apply leb_refl|].
    rewrite Forall_forall in Hall. now apply Hall.
Qed.

Lemma strongly_sorted_last (l : list A) (x : A) :
  StronglySorted key_le (l ++ [x]) -> forall y, In y (l ++ [x]) -> key_le y x.
Proof.
  induction l as [|z l IH]; simpl; intros Hs y Hy.
  - destruct Hy as [->|[]]. apply leb_refl.
  - inversion Hs as [|? ? Hs' Hall]; subst.
    destruct Hy as [->|Hy]; [|now apply IH].
    rewrite Forall_forall in Hall. apply Hall.
    apply in_or_app. right. now left.
Qed.

(** The last element of [sorted] has the greatest key. *)
Lemma sorted_last_greatest (l : list A) (x : A) (front : list A) :
  sorted key l = front ++ [x] -> In x l /\ forall y, In y l -> key_le y x.
Proof.
  intros E. split.
  - apply in_sorted. rewrite E. apply in_or_app. right. now left.
  - intros y Hy. apply in_sorted in Hy. rewrite E in Hy.
    pose proof (sorted_sorted l) as Hs. rewrite E in Hs.
    now apply strongly_sorted_last with front.
Qed.
End SortedFacts.

(** ** Reading the first and the last item *)

Lemma popitem_last {A} (front : list A) (x : A) : popitem (front ++ [x]) = ret x.
Proof. unfold popitem. now rewrite rev_app_distr. Qed.

Lemma popitem_sorted {A} (key : A -> string) (l : list A) :
  l <> [] ->
  exists x, popitem (sorted key l) = ret x /\ In x l /\ forall y, In y l -> key_le key y x.
Proof.
  intros Hl.
  destruct (exists_last (l := sorted key l)) as [front [x E]].
  { intros H. now apply sorted_nil_iff in H. }
  exists x. rewrite E. split; [apply popitem_last|].
  now apply sorted_last_greatest with front.
Qed.

Lemma getitem_sorted_first {A} (key : A -> string) (l : list A) :
  l <> [] ->
  exists x, getitem (sorted key l) 0 = ret x /\ In x l /\ forall y, In y l -> key_le key x y.
Proof.
  intros Hl. destruct (sorted key l) as [|x rest] eqn:E.
  - now apply sorted_nil_iff in E.
  - exists x. split; [reflexivity|]. now apply sorted_head_least with rest.
Qed.

Lemma length_eqb_0 {A} (l : list A) : (length l =? 0)%nat = true <-> l = [].
Proof.
  destruct l; simpl; split; intros H; try reflexivity; discriminate.
Qed.

Lemma length_eqb_0_false {A} (l : list A) : l <> [] -> (length l =? 0)%nat = false.
Proof. destruct l; simpl; congruence. Qed.

Lemma mem_In (x : string) (xs : list string) : mem x xs = true <-> In x xs.
Proof.
  unfold mem. rewrite existsb_exists. split.
  - intros [y [Hy E]]. apply String.eqb_eq in E. now subst.
  - intros H. exists x. split; [assumption|apply String.eqb_refl].
Qed.

Lemma mem_false (x : string) (xs : list string) : mem x xs = false <-> ~ In x xs.
Proof.
  rewrite <- mem_In. destruct (mem x xs); split; intros H; congruence.
Qed.

Lemma after_after (w : world) (e1 e2 : list event) :
  after (after w e1) e2 = after w (e1 ++ e2).
Proof. unfold after. simpl. now rewrite app_assoc. Qed.

Lemma emit_after (e : event) (w : world) : emit e w = (Ok tt, after w [e]).
Proof. reflexivity. Qed.

(** ** Stepping through a command *)

Lemma bind_when_false {B} (m : M unit) (k : unit -> M B) (w : world) :
  bind (when false m) k w = k tt w.
Proof. reflexivity. Qed.

Lemma bind_ok {A B} (m : M A) (k : A -> M B) (w w' : world) (a : A) :
  m w = (Ok a, w') -> bind m k w = k a w'.
Proof. intros E. unfold bind. now rewrite E. Qed.

Lemma bind_raise {A B} (m : M A) (k : A -> M B) (w w' : world) (e : exn) :
  m w = (Raise e, w') -> bind m k w = (Raise e, w').
Proof. intros E. unfold bind. now rewrite E. Qed.

(** ** The protected depot *)

(** C10. Removing the depot named purdueros-mainline is rejected with a
    BadParameter error before the registry is read or anything is deleted:
    the command leaves the registry, the trace and the input as they were. *)
Theorem remove_depot_mainline_rejected (w : world) :
  remove_depot "purdueros-mainline" w
  = (Raise (BadParameter "Cannot delete purdueros-mainline!"), w).
Proof.
  unfold remove_depot. rewrite String.eqb_refl.
  apply bind_raise. reflexivity.
Qed.

(** For comparison: any other registered name is removed. *)
Lemma remove_depot_other (name : string) (w : world) :
  name <> "purdueros-mainline" ->
  exists w', remove_depot name w = (Ok tt, w')
             /\ forall d, In d (depots w') -> DepotConfig.name d <> name.
Proof.
  intros Hn. unfold remove_depot, bind, get_depot_configs.
  apply String.eqb_neq in Hn. rewrite Hn. simpl.
  assert (G : forall l w0,
             (forall d, In d l -> DepotConfig.name d = name) ->
             (forall d, In d (depots w0) -> DepotConfig.name d = name -> In d l) ->
             exists w', for_each l
                 (fun depot => echo ("Removing " ++ DepotConfig.name depot ++ " ("
                                      ++ DepotConfig.location depot ++ ")") ;;
                               delete depot) w0 = (Ok tt, w')
               /\ forall d, In d (depots w') -> DepotConfig.name d <> name).
  { induction l as [|x l IH]; intros w0 Hl Hcov; simpl.
    - exists w0. split; [reflexivity|]. intros d Hd E. exact (Hcov d Hd E).
    - unfold bind at 1. unfold bind at 1. simpl.
      apply IH.
      + intros d Hd. apply Hl. now right.
      + simpl. intros d Hd E. apply filter_In in Hd. destruct Hd as [Hd Hneq].
        destruct (Hcov d Hd E) as [<-|Hin]; [|assumption].
        exfalso. apply negb_true_iff in Hneq.
        unfold DepotConfig.eqb in Hneq. now rewrite !String.eqb_refl in Hneq. }
  apply G.
  - intros d Hd. apply filter_In in Hd. now apply String.eqb_eq.
  - intros d Hd E. apply filter_In. split; [assumption|]. now apply String.eqb_eq.
Qed.

(** ** Local mode: [new] and [upgrade] *)

Lemma after_nil (w : world) : after w [] = w.
Proof. destruct w. unfold after. simpl. now rewrite app_nil_r. Qed.

Lemma resolve_version_step {B} (templates : list Identifier.t) (kernel : pystr)
    (k : string -> M B) (w : world) :
  templates <> [] ->
  bind (if py_is kernel "latest" then
          t <- getitem (sorted Identifier.version templates) 0 ;;
          debug (msg_resolved_version (chars kernel) (Identifier.version t)) ;;
          ret (Identifier.version t)
        else ret (chars kernel)) k w
  = k (resolved_version templates kernel) (after w (version_events templates kernel)).
Proof.
  intros Hne. unfold resolved_version, version_events.
  destruct (py_is kernel "latest") eqn:E.
  - destruct (sorted Identifier.version templates) as [|t rest] eqn:Es.
    + now apply sorted_nil_iff in Es.
    + unfold resolved_version. rewrite E, Es. reflexivity.
  - unfold bind, ret. now rewrite after_nil.
Qed.

(** With [kernel] the default object, the resolved version is the least
    version in local storage. *)
Lemma resolved_version_least (templates : list Identifier.t) (kernel : pystr) :
  templates <> [] -> py_is kernel "latest" = true ->
  (exists t, In t templates /\ Identifier.version t = resolved_version templates kernel)
  /\ forall t, In t templates ->
       (resolved_version templates kernel <=? Identifier.version t)%string = true.
Proof.
  intros Hne E. unfold resolved_version. rewrite E.
  destruct (sorted Identifier.version templates) as [|t0 rest] eqn:Es.
  - now apply sorted_nil_iff in Es.
  - destruct (sorted_head_least _ _ _ _ Es) as [Hin Hle].
    split; [now exists t0|]. intros t Ht. now apply Hle.
Qed.

Lemma hosts_nonempty_latest (templates : list Identifier.t) (kernel : pystr) :
  templates <> [] -> py_is kernel "latest" = true -> hosts templates kernel <> [].
Proof.
  intros Hne E. destruct (resolved_version_least _ _ Hne E) as [[t [Hin Hv]] _].
  intros H. assert (Hf : In t (hosts templates kernel)).
  { apply filter_In. split; [assumption|]. now apply String.eqb_eq. }
  rewrite H in Hf. destruct Hf.
Qed.

Lemma filter_idem {A} (p : A -> bool) (l : list A) : filter p (filter p l) = filter p l.
Proof.
  induction l as [|x l IH]; simpl; [reflexivity|].
  destruct (p x) eqn:E; simpl; [rewrite E|]; now rewrite IH.
Qed.

(** The comprehension of line 233 when [depot_registrar] is assigned... *)
Lemma filterM_assigned (r : option string) (l : list Identifier.t) (w : world) :
  filterM (fun t => r' <- load "depot_registrar" (Some r) ;;
                    ret (value_eqb (Identifier.depot_registrar t) r')) l w
  = (Ok (filter (fun t => value_eqb (Identifier.depot_registrar t) r) l), w).
Proof.
  induction l as [|x l IH]; simpl in *; [reflexivity|].
  unfold bind at 1. unfold bind at 1. simpl.
  unfold bind at 1. rewrite IH. reflexivity.
Qed.

(** ... and when it is not: the first template evaluated reads it. *)
Lemma filterM_unassigned (l : list Identifier.t) (w : world) :
  filterM (fun t => r' <- load "depot_registrar" (@None (option string)) ;;
                    ret (value_eqb (Identifier.depot_registrar t) r')) l w
  = match l with
    | [] => (Ok [], w)
    | _ :: _ => (Raise (NameError "depot_registrar"), w)
    end.
Proof. destruct l; reflexivity. Qed.


Lemma value_eqb_eq (a b : option string) : value_eqb a b = true <-> a = b.
Proof.
  destruct a, b; simpl; split; intros H; try congruence; try discriminate.
  - apply String.eqb_eq in H. now subst.
  - injection H as ->. apply String.eqb_refl.
Qed.


Lemma hosts_templates_nonempty (templates : list Identifier.t) (kernel : pystr) :
  hosts templates kernel <> [] -> templates <> [].
Proof. intros H E. apply H. unfold hosts. now rewrite E. Qed.

Lemma hosts_filter (templates : list Identifier.t) (kernel : pystr) :
  filter (fun t => Identifier.version t =? resolved_version templates kernel)
         (hosts templates kernel) = hosts templates kernel.
Proof. unfold hosts. apply filter_idem. Qed.

Lemma choose_depot_step (H : list Identifier.t) (w : world) :
  H <> [] ->
  (if mem_value (Some "purdueros-mainline") (map Identifier.depot_registrar H)
   then ret (Some "purdueros-mainline")
   else getitem (map Identifier.depot H) 0) w = (Ok (chosen_depot H), w).
Proof.
  intros Hne. unfold chosen_depot.
  destruct (mem_value (Some "purdueros-mainline") (map Identifier.depot_registrar H));
    [reflexivity|].
  destruct H; [congruence|reflexivity].
Qed.


Lemma asked_version_events (templates : list Identifier.t) (kernel : pystr) :
  asked (version_events templates kernel) = false.
Proof. unfold version_events. destruct (py_is kernel "latest"); reflexivity. Qed.

(** The two commands run the same resolution; the tactics below step
    through either. *)
Ltac local_version Hne :=
  rewrite (length_eqb_0_false _ Hne), bind_when_false;
  rewrite resolve_version_step by assumption.

Ltac local_auto Hne Hauto Hh :=
  let Hh' := fresh "Hh" in
  pose proof Hh as Hh'; unfold hosts in Hh';
  local_version Hne; rewrite Hauto;
  erewrite bind_ok;
  [| rewrite filter_idem;
     rewrite (length_eqb_0_false _ Hh'), bind_when_false;
     erewrite bind_ok by (now apply choose_depot_step); reflexivity ];
  cbv beta iota;
  erewrite bind_ok by apply filterM_assigned;
  clear Hh'.

Section LocalFacts.
Variables (isabs : string -> bool) (abspath : string -> string).
Variables (cfg : Config) (kernel : pystr) (location : string) (depot : pystr).

(** C6. Against an empty local catalog, [new] and [upgrade] print the
    message that tells the user to run `pros conduct download` and abort,
    whatever the kernel and depot arguments are: nothing else is printed and
    no version or depot is looked at.  The message is not one of the
    not-found messages of [download]. *)
Theorem local_mode_empty_catalog (w : world) :
  get_local_templates cfg TemplateTypes.kernel = [] ->
  new isabs abspath cfg kernel location depot w
    = (Raise Abort, after w [Echo msg_none_downloaded])
  /\ upgrade isabs abspath cfg kernel location depot w
    = (Raise Abort, after w [Echo msg_none_downloaded])
  /\ msg_none_downloaded
     = "No templates have been downloaded! Use `pros conduct download` to download the latest kernel."
  /\ (forall name, msg_none_downloaded <> msg_no_name name)
  /\ (forall name version, msg_none_downloaded <> msg_no_version name version).
Proof.
  intros E. unfold new, upgrade. rewrite E.
  repeat split; try reflexivity.
  - intros name. unfold msg_none_downloaded, msg_no_name. simpl. discriminate.
  - intros name version. unfold msg_none_downloaded, msg_no_version. simpl. discriminate.
Qed.

(** Whenever the depot argument is not the "auto" object, [depot_registrar]
    stays unassigned and the first read of it ends the command. *)
Lemma local_without_auto_object (w : world) :
  get_local_templates cfg TemplateTypes.kernel <> [] ->
  py_is depot "auto" = false ->
  new isabs abspath cfg kernel location depot w
    = (Raise (NameError "depot_registrar"),
       after w (version_events (get_local_templates cfg TemplateTypes.kernel) kernel))
  /\ upgrade isabs abspath cfg kernel location depot w
    = (Raise (NameError "depot_registrar"),
       after w (version_events (get_local_templates cfg TemplateTypes.kernel) kernel)).
Proof.
  intros Hne Hauto. split.
  - unfold new. local_version Hne. rewrite Hauto.
    unfold bind at 1. unfold ret at 1. unfold bind at 1.
    rewrite filterM_unassigned.
    destruct (filter _ (get_local_templates cfg TemplateTypes.kernel)); reflexivity.
  - unfold upgrade. local_version Hne. rewrite Hauto.
    unfold bind at 1. unfold ret at 1. unfold bind at 1.
    rewrite filterM_unassigned.
    destruct (filter _ (get_local_templates cfg TemplateTypes.kernel)); reflexivity.
Qed.

(** C5. With templates in local storage and a depot argument other than
    "auto", [new] and [upgrade] never assign [depot_registrar]: the depot
    filter of line 233 (281), or the message of line 235 (283) when no
    template has the requested version, reads the unassigned variable and the
    command ends in a NameError.  No project is created or upgraded. *)
Theorem local_explicit_depot_unassigned (w : world) :
  get_local_templates cfg TemplateTypes.kernel <> [] ->
  chars depot <> "auto" ->
  new isabs abspath cfg kernel location depot w
    = (Raise (NameError "depot_registrar"),
       after w (version_events (get_local_templates cfg TemplateTypes.kernel) kernel))
  /\ upgrade isabs abspath cfg kernel location depot w
    = (Raise (NameError "depot_registrar"),
       after w (version_events (get_local_templates cfg TemplateTypes.kernel) kernel)).
Proof.
  intros Hne Hd. apply local_without_auto_object; [exact Hne|].
  unfold py_is. apply String.eqb_neq in Hd. rewrite Hd. apply andb_false_r.
Qed.
End LocalFacts.

Section LocalAuto.
Variables (isabs : string -> bool) (abspath : string -> string).
Variables (cfg : Config) (kernel : pystr) (location : string) (depot : pystr).


(** C9. In [new] and [upgrade] the guard of line 234 (282) prints its
    message and goes on: when the depot filter keeps no template, the
    command evaluates [templates[0]] on the empty list and ends in an
    IndexError after the message, not in an abort. *)
Theorem local_empty_depot_filter_index_error (w : world) :
  py_is depot "auto" = true ->
  hosts (get_local_templates cfg TemplateTypes.kernel) kernel <> [] ->
  filter (fun t => value_eqb (Identifier.depot_registrar t)
            (chosen_depot (hosts (get_local_templates cfg TemplateTypes.kernel) kernel)))
         (hosts (get_local_templates cfg TemplateTypes.kernel) kernel) = [] ->
  let evs :=
    (version_events (get_local_templates cfg TemplateTypes.kernel) kernel
     ++ [Debug (msg_resolved_depot (chars depot)
                  (show (chosen_depot
                     (hosts (get_local_templates cfg TemplateTypes.kernel) kernel))));
         Echo (msg_none_on_depot
                  (resolved_version (get_local_templates cfg TemplateTypes.kernel) kernel)
                  (show (chosen_depot
                     (hosts (get_local_templates cfg TemplateTypes.kernel) kernel))))])%list in
  new isabs abspath cfg kernel location depot w = (Raise IndexError, after w evs)
  /\ upgrade isabs abspath cfg kernel location depot w = (Raise IndexError, after w evs).
Proof.
  intros Hauto Hh Ef evs. subst evs.
  pose proof (hosts_templates_nonempty _ _ Hh) as Hne.
  split.
  - unfold new. local_auto Hne Hauto Hh.
    fold (hosts (get_local_templates cfg TemplateTypes.kernel) kernel). rewrite Ef.
    unfold after, bind, ret, getitem, echo, emit. simpl.
    rewrite <- !app_assoc. reflexivity.
  - unfold upgrade. local_auto Hne Hauto Hh.
    fold (hosts (get_local_templates cfg TemplateTypes.kernel) kernel). rewrite Ef.
    unfold after, bind, ret, getitem, echo, emit. simpl.
    rewrite <- !app_assoc. reflexivity.
Qed.
End LocalAuto.

Section LocalAutoOutcome.
Variables (isabs : string -> bool) (abspath : string -> string).
Variables (cfg : Config) (kernel : pystr) (location : string).

(** C8. What [new] and [upgrade] do with the depot argument "auto" when
    templates of the resolved version are stored, on however many depots.
    The resolution of lines 222-232 (270-280) runs only when the argument is
    the object of the literal ([depot is 'auto']).  An "auto" that is an
    object of its own, as one typed on the command line is, leaves
    [depot_registrar] unassigned: the command ends in a NameError at line 233
    (281), whichever depots host the version, and no project is created or
    upgraded.  For the object of the literal the command settles on
    purdueros-mainline when a template of the version has it as
    [depot_registrar], and otherwise on the [depot] attribute of the first
    such template in the order of the local catalog; it then keeps the
    templates whose [depot_registrar] is that value and creates (upgrades)
    from the first one kept, which need not be the first template of the
    version, or ends in an IndexError when none is kept.  Neither path asks
    the user anything. *)
Theorem local_auto_outcome (w : world) :
  hosts (get_local_templates cfg TemplateTypes.kernel) kernel <> [] ->
  let templates := get_local_templates cfg TemplateTypes.kernel in
  let dest := if negb (isabs location) then abspath location else location in
  let d := chosen_depot (hosts templates kernel) in
  let resolution :=
    (version_events templates kernel ++ [Debug (msg_resolved_depot "auto" (show d))])%list in
  (new isabs abspath cfg kernel location (typed "auto") w
     = (Raise (NameError "depot_registrar"), after w (version_events templates kernel))
   /\ upgrade isabs abspath cfg kernel location (typed "auto") w
     = (Raise (NameError "depot_registrar"), after w (version_events templates kernel)))
  /\ match filter (fun t => value_eqb (Identifier.depot_registrar t) d)
                  (hosts templates kernel) with
     | template :: _ =>
         new isabs abspath cfg kernel location (default "auto") w
           = (Ok tt,
              after w (resolution
                       ++ [Echo (msg_creating (Identifier.version template) (show d) dest);
                           CreateProject template dest]))
         /\ upgrade isabs abspath cfg kernel location (default "auto") w
           = (Ok tt,
              after w (resolution
                       ++ [Echo (msg_creating (Identifier.version template) (show d) dest);
                           UpgradeProject template dest]))
     | [] =>
         new isabs abspath cfg kernel location (default "auto") w
           = (Raise IndexError,
              after w (resolution
                       ++ [Echo (msg_none_on_depot (resolved_version templates kernel)
                                                   (show d))]))
         /\ upgrade isabs abspath cfg kernel location (default "auto") w
           = (Raise IndexError,
              after w (resolution
                       ++ [Echo (msg_none_on_depot (resolved_version templates kernel)
                                                   (show d))]))
     end
  /\ asked resolution = false.
Proof.
  intros Hh templates dest d resolution.
  pose proof (hosts_templates_nonempty _ _ Hh) as Hne.
  assert (Hauto : py_is (default "auto") "auto" = true) by reflexivity.
  split; [|split].
  - apply local_without_auto_object; [exact Hne|reflexivity].
  - destruct (filter (fun t => value_eqb (Identifier.depot_registrar t) d)
                     (hosts templates kernel)) as [|template rest] eqn:Ef;
      subst templates d resolution dest.
    + split.
      * unfold new. local_auto Hne Hauto Hh.
        fold (hosts (get_local_templates cfg TemplateTypes.kernel) kernel). rewrite Ef.
        unfold after, bind, ret, getitem, echo, emit. simpl.
        rewrite <- !app_assoc. reflexivity.
      * unfold upgrade. local_auto Hne Hauto Hh.
        fold (hosts (get_local_templates cfg TemplateTypes.kernel) kernel). rewrite Ef.
        unfold after, bind, ret, getitem, echo, emit. simpl.
        rewrite <- !app_assoc. reflexivity.
    + assert (Er : Identifier.depot_registrar template
                   = chosen_depot (hosts (get_local_templates cfg TemplateTypes.kernel) kernel)).
      { assert (Hin : In template (template :: rest)) by now left.
        rewrite <- Ef in Hin. apply filter_In in Hin. now apply value_eqb_eq. }
      split.
      * unfold new. local_auto Hne Hauto Hh.
        fold (hosts (get_local_templates cfg TemplateTypes.kernel) kernel). rewrite Ef.
        rewrite <- Er. unfold after, bind, ret, getitem, echo, emit. simpl.
        rewrite <- !app_assoc. reflexivity.
      * unfold upgrade. local_auto Hne Hauto Hh.
        fold (hosts (get_local_templates cfg TemplateTypes.kernel) kernel). rewrite Ef.
        rewrite <- Er. unfold after, bind, ret, getitem, echo, emit. simpl.
        rewrite <- !app_assoc. reflexivity.
  - subst resolution. unfold asked. rewrite existsb_app.
    fold (asked (version_events templates kernel)).
    now rewrite asked_version_events.
Qed.
End LocalAutoOutcome.

(** ** [download] *)

Lemma filter_depot_auto (name : string) (listing : Listing) (w : world) :
  filter_depot name "auto" listing w = (Ok listing, w).
Proof. reflexivity. Qed.

Lemma in_depot_names (depot : string) (listing : Listing) :
  In depot (depot_names listing)
  <-> exists i ds, In (i, ds) listing /\ In depot (map depot_name ds).
Proof.
  unfold depot_names. rewrite in_flat_map. split.
  - intros [[i ds] [Hin Hd]]. now exists i, ds.
  - intros [i [ds [Hin Hd]]]. now exists (i, ds).
Qed.

Lemma filter_depot_missing (name depot : string) (listing : Listing) (w : world) :
  depot <> "auto" -> ~ In depot (depot_names listing) ->
  filter_depot name depot listing w = (Raise Abort, after w [Echo (msg_no_depot name depot)]).
Proof.
  intros Ha Hn. unfold filter_depot.
  apply String.eqb_neq in Ha. rewrite Ha. simpl negb. cbv iota.
  apply mem_false in Hn. fold (depot_names listing). rewrite Hn. reflexivity.
Qed.

Lemma filter_depot_hosted (name depot : string) (listing : Listing) (w : world) :
  depot <> "auto" -> In depot (depot_names listing) ->
  filter_depot name depot listing w = (Ok (on_depot depot listing), w).
Proof.
  intros Ha Hn. unfold filter_depot.
  apply String.eqb_neq in Ha. rewrite Ha. simpl negb. cbv iota.
  apply mem_In in Hn. fold (depot_names listing). rewrite Hn. reflexivity.
Qed.

Lemma in_on_depot (depot : string) (listing : Listing) (i : Identifier.t)
    (ds : list TemplateDescriptor.t) :
  In (i, ds) (on_depot depot listing)
  <-> exists ds0, In (i, ds0) listing /\ In depot (map depot_name ds0)
                  /\ ds = filter (fun d => depot_name d =? depot) ds0.
Proof.
  unfold on_depot. rewrite in_map_iff. split.
  - intros [[i0 ds0] [E Hin]]. injection E as <- <-.
    apply filter_In in Hin. destruct Hin as [Hin Hm]. apply mem_In in Hm.
    now exists ds0.
  - intros [ds0 [Hin [Hm ->]]]. exists (i, ds0). split; [reflexivity|].
    apply filter_In. split; [assumption|]. now apply mem_In.
Qed.

(** With version "latest" the identifier of the greatest version is
    selected among those of the listing. *)
Lemma select_version_latest (name : string) (listing : Listing) (w : world) :
  listing <> [] ->
  exists i ds,
    select_version name "latest" listing w
    = (Ok (i, ds),
       after w [Echo (msg_resolved name "latest" (Identifier.name i) (Identifier.version i))])
    /\ In (i, ds) listing
    /\ forall i' ds', In (i', ds') listing ->
         (Identifier.version i' <=? Identifier.version i)%string = true.
Proof.
  intros Hne.
  destruct (popitem_sorted (fun kvp : Identifier.t * list TemplateDescriptor.t =>
                              Identifier.version (fst kvp)) listing Hne)
    as [[i ds] [Hp [Hin Hmax]]].
  exists i, ds. split; [|split; [exact Hin|]].
  - unfold select_version. rewrite String.eqb_refl.
    erewrite bind_ok by (rewrite Hp; reflexivity). reflexivity.
  - intros i' ds' Hin'. exact (Hmax (i', ds') Hin').
Qed.

(** A depot that occurs once among the descriptors of an identifier is the
    only descriptor its filter keeps. *)
Lemma filter_single_depot (depot : string) (ds : list TemplateDescriptor.t) :
  NoDup (map depot_name ds) -> In depot (map depot_name ds) ->
  exists d, filter (fun d => depot_name d =? depot) ds = [d]
            /\ In d ds /\ depot_name d = depot.
Proof.
  induction ds as [|x ds IH]; simpl; intros Hnd Hin; [destruct Hin|].
  inversion Hnd as [|? ? Hx Hnd']; subst.
  destruct (depot_name x =? depot) eqn:E.
  - apply String.eqb_eq in E. exists x. split; [|split; [now left|exact E]].
    f_equal. rewrite <- E in *.
    clear -Hx. induction ds as [|y ds IH]; simpl; [reflexivity|].
    destruct (depot_name y =? depot_name x) eqn:Ey.
    + exfalso. apply Hx. left. now apply String.eqb_eq.
    + apply IH. intros H. apply Hx. now right.
  - destruct Hin as [Hin|Hin]; [apply String.eqb_neq in E; congruence|].
    destruct (IH Hnd' Hin) as [d [Hf [Hd Hn]]].
    exists d. split; [exact Hf|split; [now right|exact Hn]].
Qed.

Lemma select_descriptor_single (name version depot : string) (i : Identifier.t)
    (d : TemplateDescriptor.t) (w : world) :
  depot = "auto" \/ depot_name d = depot ->
  select_descriptor name version depot i [d] w = (Ok (Descriptor d), w).
Proof.
  intros H. unfold select_descriptor.
  change (length [d] =? 0)%nat with false.
  change (1 <? length [d])%nat with false.
  rewrite bind_when_false. cbv iota.
  erewrite bind_ok by reflexivity.
  assert (E : (depot =? "auto") || (depot_name d =? depot) = true).
  { apply orb_true_iff. destruct H as [->|H]; [now left|right].
    now apply String.eqb_eq. }
  now rewrite E.
Qed.

Lemma download_checked (cfg : Config) (name version depot : string) (no_check : bool)
    (n v : string) (w : world) :
  normalize name version = (n, v) ->
  (v =? "latest") || (depot =? "auto") || negb no_check = true ->
  named n cfg <> [] ->
  download cfg name version depot no_check w
  = bind (listing <- filter_depot n depot (named n cfg) ;;
          ' (identifier, descriptors) <- select_version n v listing ;;
          descriptor <- select_descriptor n v depot identifier descriptors ;;
          ret (identifier, descriptor))
         (fun '(identifier, descriptor) =>
            d <- getattr_depot descriptor ;;
            echo (msg_downloading (Identifier.name identifier)
                    (Identifier.version identifier)
                    (DepotConfig.name (DepotProvider.config d))
                    (DepotProvider.registrar d)) ;;
            emit (Download identifier d))
         (after w [Echo msg_fetching]).
Proof.
  intros Hn Hc Hne. unfold download. rewrite Hn, Hc.
  fold (named n cfg). rewrite (length_eqb_0_false _ Hne).
  reflexivity.
Qed.

Section DownloadFacts.
Variables (cfg : Config) (name version depot : string) (no_check : bool).

(** C7, amended. When [download] consults the listing (the version is
    "latest" or --no-check is not given), the listing has identifiers of the
    requested name and none of their descriptors is on the explicit depot,
    the command prints that no templates for the name were found on that
    depot and aborts: nothing is downloaded, from any depot. *)
Theorem download_explicit_depot_mismatch (n v : string) (w : world) :
  normalize name version = (n, v) ->
  v = "latest" \/ no_check = false ->
  depot <> "auto" ->
  named n cfg <> [] ->
  ~ In depot (depot_names (named n cfg)) ->
  download cfg name version depot no_check w
  = (Raise Abort, after w [Echo msg_fetching; Echo (msg_no_depot n depot)]).
Proof.
  intros Hn Hc Ha Hne Hmiss.
  rewrite (download_checked _ _ _ _ _ n v) ; try assumption.
  - erewrite bind_raise; [reflexivity|].
    erewrite bind_raise; [reflexivity|].
    rewrite filter_depot_missing by assumption. now rewrite after_after.
  - destruct Hc as [->| ->]; [reflexivity|apply orb_true_r].
Qed.

(** C3, amended. With version "latest" and an explicit depot that offers
    the requested name (each depot at most once per identifier), the depot
    narrows the listing before the version is resolved: [download] selects
    the identifier of the greatest version among those the depot offers,
    whatever other depots offer, and downloads it from that depot. *)
Theorem download_latest_on_explicit_depot (n : string) (w : world) :
  normalize name version = (n, "latest") ->
  depot <> "auto" ->
  In depot (depot_names (named n cfg)) ->
  (forall i ds, In (i, ds) (named n cfg) -> NoDup (map depot_name ds)) ->
  exists i ds d,
    In (i, ds) (named n cfg) /\ In d ds /\ depot_name d = depot
    /\ (forall i' ds', In (i', ds') (named n cfg) -> In depot (map depot_name ds') ->
          (Identifier.version i' <=? Identifier.version i)%string = true)
    /\ download cfg name version depot no_check w
       = (Ok tt,
          after w [Echo msg_fetching;
                   Echo (msg_resolved n "latest" (Identifier.name i) (Identifier.version i));
                   Echo (msg_downloading (Identifier.name i) (Identifier.version i) depot
                           (DepotProvider.registrar (TemplateDescriptor.depot d)));
                   Download i (TemplateDescriptor.depot d)]).
Proof.
  intros Hn Ha Hin Hnd.
  assert (Hne : named n cfg <> []).
  { intros E. rewrite E in Hin. destruct Hin. }
  assert (Hne' : on_depot depot (named n cfg) <> []).
  { apply in_depot_names in Hin. destruct Hin as [i0 [ds0 [H0 Hd0]]].
    intros E.
    assert (H : In (i0, filter (fun d => depot_name d =? depot) ds0)
                   (on_depot depot (named n cfg))).
    { apply in_on_depot. now exists ds0. }
    rewrite E in H. destruct H. }
  destruct (select_version_latest n _ (after w [Echo msg_fetching]) Hne')
    as [i [ds' [Hsel [Hin' Hmax]]]].
  apply in_on_depot in Hin'. destruct Hin' as [ds [Hids [Hdep ->]]].
  destruct (filter_single_depot depot ds (Hnd _ _ Hids) Hdep) as [d [Hf [Hd Hdn]]].
  exists i, ds, d. repeat split; try assumption.
  - intros i' ds'' Hi' Hd'. apply (Hmax i' (filter (fun d => depot_name d =? depot) ds'')).
    apply in_on_depot. now exists ds''.
  - rewrite (download_checked _ _ _ _ _ n "latest"); try assumption; [|reflexivity].
    erewrite bind_ok.
    2:{ erewrite bind_ok by (now apply filter_depot_hosted).
        erewrite bind_ok by exact Hsel. cbv beta iota.
        rewrite Hf.
        erewrite bind_ok by (apply select_descriptor_single; now right).
        reflexivity. }
    cbv beta iota. unfold getattr_depot.
    erewrite bind_ok by reflexivity.
    unfold bind, echo, emit, after. simpl.
    unfold depot_name in Hdn. rewrite Hdn.
    rewrite <- !app_assoc. reflexivity.
Qed.
End DownloadFacts.

(** ** The default-priority depot in [download] *)

Lemma select_descriptor_mainline (version : string) (i : Identifier.t)
    (ds : list TemplateDescriptor.t) (w : world) :
  1 < length ds -> In "purdueros-mainline" (map depot_name ds) ->
  select_descriptor "kernel" version "auto" i ds w
  = (Ok (DescriptorList
           (filter (fun desc => depot_name desc =? "purdueros-mainline") ds)), w).
Proof.
  intros Hlen Hin. unfold select_descriptor.
  assert (E0 : (length ds =? 0)%nat = false) by (apply Nat.eqb_neq; lia).
  assert (E1 : (1 <? length ds)%nat = true) by (now apply Nat.ltb_lt).
  apply mem_In in Hin.
  rewrite E0, bind_when_false, E1, Hin. reflexivity.
Qed.

(** C1. For a kernel request with depot "auto" whose resolved identifier
    has several descriptors, the mainline depot among them, [download] binds
    [descriptor] to the list the comprehension of line 172 builds, not to a
    descriptor: reading [descriptor.depot] for the message of line 198 ends
    the command in an AttributeError, and nothing is downloaded. *)
Theorem download_auto_mainline_attribute_error (cfg : Config) (name version : string)
    (no_check : bool) (v : string) (i : Identifier.t) (ds : list TemplateDescriptor.t)
    (w w1 : world) :
  normalize name version = ("kernel", v) ->
  named "kernel" cfg <> [] ->
  select_version "kernel" v (named "kernel" cfg) (after w [Echo msg_fetching])
  = (Ok (i, ds), w1) ->
  1 < length ds ->
  In "purdueros-mainline" (map depot_name ds) ->
  download cfg name version "auto" no_check w = (Raise (AttributeError "list" "depot"), w1).
Proof.
  intros Hn Hne Hsel Hlen Hin.
  rewrite (download_checked _ _ _ _ _ "kernel" v); try assumption.
  - erewrite bind_ok.
    2:{ erewrite bind_ok by apply filter_depot_auto.
        erewrite bind_ok by exact Hsel. cbv beta iota.
        erewrite bind_ok by (now apply select_descriptor_mainline).
        reflexivity. }
    reflexivity.
  - rewrite String.eqb_refl, orb_true_r. reflexivity.
Qed.

Lemma download_auto_mainline_attribute_error_witness :
  normalize "kernel" "1.0.0" = ("kernel", "1.0.0")
  /\ named "kernel" (online_catalog scenario) <> []
  /\ select_version "kernel" "1.0.0" (named "kernel" (online_catalog scenario))
                    (after (fresh []) [Echo msg_fetching])
     = (Ok (Identifier.make "kernel" "1.0.0", [offer "purdueros-mainline"; offer "alt"]),
        after (fresh []) [Echo msg_fetching])
  /\ 1 < length [offer "purdueros-mainline"; offer "alt"]
  /\ In "purdueros-mainline" (map depot_name [offer "purdueros-mainline"; offer "alt"])
  /\ download (online_catalog scenario) "kernel" "1.0.0" "auto" false (fresh [])
     = (Raise (AttributeError "list" "depot"), after (fresh []) [Echo msg_fetching]).
Proof.
  assert (H1 : normalize "kernel" "1.0.0" = ("kernel", "1.0.0")) by reflexivity.
  assert (H2 : named "kernel" (online_catalog scenario) <> []) by discriminate.
  assert (Hs : select_version "kernel" "1.0.0" (named "kernel" (online_catalog scenario))
                              (after (fresh []) [Echo msg_fetching])
               = (Ok (Identifier.make "kernel" "1.0.0",
                      [offer "purdueros-mainline"; offer "alt"]),
                  after (fresh []) [Echo msg_fetching])) by reflexivity.
  assert (H3 : 1 < length [offer "purdueros-mainline"; offer "alt"]) by (simpl; lia).
  assert (H4 : In "purdueros-mainline"
                  (map depot_name [offer "purdueros-mainline"; offer "alt"]))
    by (now left).
  refine (conj H1 (conj H2 (conj Hs (conj H3 (conj H4 _))))).
  exact (download_auto_mainline_attribute_error (online_catalog scenario)
           "kernel" "1.0.0" false "1.0.0" (Identifier.make "kernel" "1.0.0")
           [offer "purdueros-mainline"; offer "alt"] (fresh [])
           (after (fresh []) [Echo msg_fetching]) H1 H2 Hs H3 H4).
Defined.

(** C2. With versions 1.0.0, 1.2.0 and 1.1.5 of the kernel and version
    "latest", [download] resolves the greatest one, 1.2.0 (lines 154-156),
    but [new] and [upgrade] take the first element of the ascending sort
    (lines 219 and 267) and resolve the least one, 1.0.0. *)
Theorem latest_of_three_versions :
  download (online_catalog three_versions) "kernel" "latest" "auto" false (fresh [])
  = (Ok tt,
     after (fresh [])
       [Echo msg_fetching;
        Echo "Resolved kernel latest to kernel 1.2.0";
        Echo "Downloading kernel 1.2.0 from purdueros-mainline using github-releases";
        Download (Identifier.make "kernel" "1.2.0") (provider "purdueros-mainline")])
  /\ new posix_isabs posix_abspath (local_catalog three_stored)
         (default "latest") "/proj" (default "auto") (fresh [])
     = (Ok tt,
        after (fresh [])
          [Debug "Resolved version latest to 1.0.0";
           Debug "Resolved depot auto to purdueros-mainline";
           Echo "Creating new project from 1.0.0 on purdueros-mainline at /proj";
           CreateProject (stored "1.0.0" "purdueros-mainline") "/proj"])
  /\ upgrade posix_isabs posix_abspath (local_catalog three_stored)
         (default "latest") "/proj" (default "auto") (fresh [])
     = (Ok tt,
        after (fresh [])
          [Debug "Resolved version latest to 1.0.0";
           Debug "Resolved depot auto to purdueros-mainline";
           Echo "Creating new project from 1.0.0 on purdueros-mainline at /proj";
           UpgradeProject (stored "1.0.0" "purdueros-mainline") "/proj"]).
Proof.
  split; [|split].
  - vm_compute. reflexivity.
  - vm_compute. reflexivity.
  - vm_compute. reflexivity.
Qed.

(** C4. With kernel 1.0.0 on the depots zeta and alpha, in this order,
    [download] prints the table sorted by depot name, each row with the
    index of the depot among the descriptors, and proposes alpha.  The
    answer "zeta" selects zeta and the empty answer alpha; the answer "0",
    the index printed next to zeta, is looked up as a row number of the
    sorted table (line 182) and selects alpha. *)
Theorem prompt_index_selects_sorted_row :
  let asking :=
    [Echo msg_fetching;
     Echo "Resolved kernel latest to kernel 1.0.0";
     Echo "Multiple depots for kernel-1.0.0 were found. Please specify a depot: ";
     EchoTable [(1, "alpha"); (0, "zeta")] [""; "Depot"];
     Prompt "Which depot?" "alpha" ["1"; "0"; "alpha"; "zeta"]] in
  let from depot :=
    [Echo ("Downloading kernel 1.0.0 from " ++ depot ++ " using github-releases");
     Download (Identifier.make "kernel" "1.0.0") (provider depot)] in
  download (online_catalog two_depots) "kernel" "latest" "auto" false (fresh ["0"])
  = (Ok tt, after (fresh []) (asking ++ from "alpha"))
  /\ download (online_catalog two_depots) "kernel" "latest" "auto" false (fresh ["zeta"])
     = (Ok tt, after (fresh []) (asking ++ from "zeta"))
  /\ download (online_catalog two_depots) "kernel" "latest" "auto" false (fresh [""])
     = (Ok tt, after (fresh []) (asking ++ from "alpha")).
Proof.
  cbv zeta. split; [|split].
  - vm_compute. reflexivity.
  - vm_compute. reflexivity.
  - vm_compute. reflexivity.
Qed.

(** The depot filter comes first: asked for the latest kernel on the
    mainline depot, [download] takes 1.0.0 from it although alt offers
    1.1.0. *)
Lemma download_latest_is_per_depot :
  download (online_catalog scenario) "kernel" "latest" "purdueros-mainline" false (fresh [])
  = (Ok tt,
     after (fresh [])
       [Echo msg_fetching;
        Echo "Resolved kernel latest to kernel 1.0.0";
        Echo "Downloading kernel 1.0.0 from purdueros-mainline using github-releases";
        Download (Identifier.make "kernel" "1.0.0") (provider "purdueros-mainline")])
  /\ In (Identifier.make "kernel" "1.1.0", [offer "alt"])
        (named "kernel" (online_catalog scenario))
  /\ ("1.0.0" <? "1.1.0")%string = true.
Proof.
  split; [|split].
  - vm_compute. reflexivity.
  - right. now left.
  - reflexivity.
Qed.

Lemma download_latest_on_explicit_depot_witness :
  normalize "kernel" "latest" = ("kernel", "latest")
  /\ "purdueros-mainline" <> "auto"
  /\ In "purdueros-mainline" (depot_names (named "kernel" (online_catalog scenario)))
  /\ (forall i ds, In (i, ds) (named "kernel" (online_catalog scenario)) ->
                   NoDup (map depot_name ds))
  /\ exists i d,
       depot_name d = "purdueros-mainline"
       /\ download (online_catalog scenario) "kernel" "latest" "purdueros-mainline" false
                   (fresh [])
          = (Ok tt,
             after (fresh [])
               [Echo msg_fetching;
                Echo (msg_resolved "kernel" "latest" (Identifier.name i)
                                   (Identifier.version i));
                Echo (msg_downloading (Identifier.name i) (Identifier.version i)
                        "purdueros-mainline"
                        (DepotProvider.registrar (TemplateDescriptor.depot d)));
                Download i (TemplateDescriptor.depot d)]).
Proof.
  assert (H1 : normalize "kernel" "latest" = ("kernel", "latest")) by reflexivity.
  assert (H2 : "purdueros-mainline" <> "auto") by discriminate.
  assert (H3 : In "purdueros-mainline"
                  (depot_names (named "kernel" (online_catalog scenario))))
    by (now left).
  assert (H4 : forall i ds, In (i, ds) (named "kernel" (online_catalog scenario)) ->
                            NoDup (map depot_name ds)).
  { intros i ds [E|[E|[]]]; injection E as <- <-; repeat constructor; simpl;
      intuition discriminate. }
  refine (conj H1 (conj H2 (conj H3 (conj H4 _)))).
  destruct (download_latest_on_explicit_depot (online_catalog scenario)
              "kernel" "latest" "purdueros-mainline" false "kernel" (fresh [])
              H1 H2 H3 H4) as [i [ds [d [_ [_ [Hd [_ Hrun]]]]]]].
  exists i, d. exact (conj Hd Hrun).
Defined.

(** Two requests with an explicit depot that none of the kernel's
    descriptors is on: with --no-check and an explicit version the listing
    is not consulted and the download goes ahead; with no kernel in the
    listing at all the failure is the one of the name. *)
Lemma download_explicit_depot_unchecked :
  mem "alt" (depot_names (named "kernel" (online_catalog three_versions))) = false
  /\ download (online_catalog three_versions) "kernel" "1.0.0" "alt" true (fresh [])
     = (Ok tt,
        after (fresh [])
          [Echo "Downloading kernel 1.0.0 from alt using github-releases";
           Download (Identifier.make "kernel" "1.0.0") (provider "alt")])
  /\ download (online_catalog []) "kernel" "1.0.0" "alt" false (fresh [])
     = (Raise Abort,
        after (fresh [])
          [Echo msg_fetching; Echo "No templates were found with the name kernel"]).
Proof.
  split; [|split].
  - reflexivity.
  - vm_compute. reflexivity.
  - vm_compute. reflexivity.
Qed.

Lemma download_explicit_depot_mismatch_witness :
  normalize "kernel" "1.0.0" = ("kernel", "1.0.0")
  /\ ("1.0.0" = "latest" \/ false = false)
  /\ "alt" <> "auto"
  /\ named "kernel" (online_catalog three_versions) <> []
  /\ ~ In "alt" (depot_names (named "kernel" (online_catalog three_versions)))
  /\ download (online_catalog three_versions) "kernel" "1.0.0" "alt" false (fresh [])
     = (Raise Abort,
        after (fresh []) [Echo msg_fetching; Echo (msg_no_depot "kernel" "alt")]).
Proof.
  assert (H1 : normalize "kernel" "1.0.0" = ("kernel", "1.0.0")) by reflexivity.
  assert (H2 : "1.0.0" = "latest" \/ false = false) by (now right).
  assert (H3 : "alt" <> "auto") by discriminate.
  assert (H4 : named "kernel" (online_catalog three_versions) <> []) by discriminate.
  assert (H5 : ~ In "alt" (depot_names (named "kernel" (online_catalog three_versions))))
    by (apply mem_false; reflexivity).
  refine (conj H1 (conj H2 (conj H3 (conj H4 (conj H5 _))))).
  exact (download_explicit_depot_mismatch (online_catalog three_versions)
           "kernel" "1.0.0" "alt" false "kernel" "1.0.0" (fresh []) H1 H2 H3 H4 H5).
Defined.

Lemma local_mode_empty_catalog_witness :
  get_local_templates (local_catalog []) TemplateTypes.kernel = []
  /\ new posix_isabs posix_abspath (local_catalog []) (default "latest") "proj"
         (default "auto") (fresh [])
     = (Raise Abort, after (fresh []) [Echo msg_none_downloaded])
  /\ upgrade posix_isabs posix_abspath (local_catalog []) (default "latest") "proj"
         (default "auto") (fresh [])
     = (Raise Abort, after (fresh []) [Echo msg_none_downloaded]).
Proof.
  assert (H1 : get_local_templates (local_catalog []) TemplateTypes.kernel = [])
    by reflexivity.
  refine (conj H1 _).
  destruct (local_mode_empty_catalog posix_isabs posix_abspath (local_catalog [])
              (default "latest") "proj" (default "auto") (fresh []) H1)
    as [Hnew [Hup _]].
  exact (conj Hnew Hup).
Defined.

Lemma local_explicit_depot_unassigned_witness :
  get_local_templates (local_catalog three_stored) TemplateTypes.kernel <> []
  /\ chars (typed "purdueros-mainline") <> "auto"
  /\ new posix_isabs posix_abspath (local_catalog three_stored) (typed "1.0.0") "proj"
         (typed "purdueros-mainline") (fresh [])
     = (Raise (NameError "depot_registrar"), fresh []).
Proof.
  assert (H1 : get_local_templates (local_catalog three_stored) TemplateTypes.kernel <> [])
    by discriminate.
  assert (H2 : chars (typed "purdueros-mainline") <> "auto") by discriminate.
  refine (conj H1 (conj H2 _)).
  exact (proj1 (local_explicit_depot_unassigned posix_isabs posix_abspath
                  (local_catalog three_stored) (typed "1.0.0") "proj"
                  (typed "purdueros-mainline") (fresh []) H1 H2)).
Defined.

(** Two more runs that end in the unassigned variable: a version that is
    not stored, with an explicit depot, where the depot filter has nothing
    to look at and the message of line 235 reads the variable; and "auto"
    typed on the command line as an object of its own. *)
Lemma local_unassigned_examples :
  new posix_isabs posix_abspath (local_catalog three_stored) (typed "9.9.9") "proj"
      (typed "purdueros-mainline") (fresh [])
  = (Raise (NameError "depot_registrar"), fresh [])
  /\ new posix_isabs posix_abspath (local_catalog three_stored) (typed "1.0.0") "proj"
         (typed "auto") (fresh [])
     = (Raise (NameError "depot_registrar"), fresh []).
Proof. split; vm_compute; reflexivity. Qed.


Lemma local_auto_outcome_witness :
  hosts (get_local_templates (local_catalog stored_twice) TemplateTypes.kernel)
        (typed "1.0.0") <> []
  /\ new posix_isabs posix_abspath (local_catalog stored_twice) (typed "1.0.0") "proj"
         (typed "auto") (fresh [])
     = (Raise (NameError "depot_registrar"), fresh [])
  /\ upgrade posix_isabs posix_abspath (local_catalog stored_twice) (typed "1.0.0") "proj"
         (typed "auto") (fresh [])
     = (Raise (NameError "depot_registrar"), fresh [])
  /\ hosts (get_local_templates (local_catalog stored_crossed) TemplateTypes.kernel)
           (default "latest") <> []
  /\ new posix_isabs posix_abspath (local_catalog stored_crossed) (default "latest") "proj"
         (default "auto") (fresh [])
     = (Ok tt,
        after (fresh [])
          [Debug "Resolved version latest to 1.0.0";
           Debug "Resolved depot auto to beta";
           Echo "Creating new project from 1.0.0 on beta at /home/user/proj";
           CreateProject (stored "1.0.0" "beta") "/home/user/proj"]).
Proof.
  assert (H1 : hosts (get_local_templates (local_catalog stored_twice)
                                          TemplateTypes.kernel) (typed "1.0.0") <> [])
    by discriminate.
  assert (H2 : hosts (get_local_templates (local_catalog stored_crossed)
                                          TemplateTypes.kernel) (default "latest") <> [])
    by discriminate.
  pose proof (local_auto_outcome posix_isabs posix_abspath (local_catalog stored_twice)
                (typed "1.0.0") "proj" (fresh []) H1) as [[Hnew Hup] _].
  pose proof (local_auto_outcome posix_isabs posix_abspath (local_catalog stored_crossed)
                (default "latest") "proj" (fresh []) H2) as [_ [Hcrossed _]].
  refine (conj H1 (conj Hnew (conj Hup (conj H2 _)))).
  exact (proj1 Hcrossed).
Defined.

Lemma local_empty_depot_filter_index_error_witness :
  py_is (default "auto") "auto" = true
  /\ hosts (get_local_templates (local_catalog stored_apart) TemplateTypes.kernel)
           (default "latest") <> []
  /\ filter (fun t => value_eqb (Identifier.depot_registrar t)
               (chosen_depot
                  (hosts (get_local_templates (local_catalog stored_apart)
                                              TemplateTypes.kernel) (default "latest"))))
            (hosts (get_local_templates (local_catalog stored_apart) TemplateTypes.kernel)
                   (default "latest")) = []
  /\ new posix_isabs posix_abspath (local_catalog stored_apart) (default "latest") "proj"
         (default "auto") (fresh [])
     = (Raise IndexError,
        after (fresh [])
          [Debug "Resolved version latest to 1.0.0";
           Debug "Resolved depot auto to mirror";
           Echo "No templates were found for kernel version 1.0.0 on mirror"]).
Proof.
  assert (H1 : py_is (default "auto") "auto" = true) by reflexivity.
  assert (H2 : hosts (get_local_templates (local_catalog stored_apart)
                                          TemplateTypes.kernel) (default "latest") <> [])
    by discriminate.
  assert (H3 : filter (fun t => value_eqb (Identifier.depot_registrar t)
                  (chosen_depot
                     (hosts (get_local_templates (local_catalog stored_apart)
                                                 TemplateTypes.kernel) (default "latest"))))
               (hosts (get_local_templates (local_catalog stored_apart)
                                           TemplateTypes.kernel) (default "latest")) = [])
    by reflexivity.
  refine (conj H1 (conj H2 (conj H3 _))).
  exact (proj1 (local_empty_depot_filter_index_error posix_isabs posix_abspath
                  (local_catalog stored_apart) (default "latest") "proj"
                  (default "auto") (fresh []) H1 H2 H3)).
Defined.

(** ** Further properties of [download] *)

(** X1. With version "latest" and a listing that is not empty, lines
    154-156 select an identifier of the listing whose version is greatest
    in the order of strings, and print what was resolved. *)
Theorem select_latest_is_greatest (name : string) (listing : Listing) (w : world) :
  listing <> [] ->
  exists i ds,
    select_version name "latest" listing w
    = (Ok (i, ds),
       after w [Echo (msg_resolved name "latest" (Identifier.name i) (Identifier.version i))])
    /\ In (i, ds) listing
    /\ forall i' ds', In (i', ds') listing ->
         (Identifier.version i' <=? Identifier.version i)%string = true.
Proof. intros Hne. now apply select_version_latest. Qed.

Lemma select_latest_is_greatest_witness :
  three_versions <> []
  /\ exists i ds,
       select_version "kernel" "latest" three_versions (fresh [])
       = (Ok (i, ds),
          after (fresh [])
            [Echo (msg_resolved "kernel" "latest" (Identifier.name i)
                                (Identifier.version i))])
       /\ ("1.2.0" <=? Identifier.version i)%string = true.
Proof.
  assert (H1 : three_versions <> []) by discriminate.
  refine (conj H1 _).
  destruct (select_latest_is_greatest "kernel" three_versions (fresh []) H1)
    as [i [ds [Hrun [_ Hmax]]]].
  exists i, ds. split; [exact Hrun|].
  apply (Hmax (Identifier.make "kernel" "1.2.0") [offer "purdueros-mainline"]).
  right. now left.
Defined.

(** X2. In auto-depot mode, when the resolved identifier has exactly one
    descriptor, [download] takes it without asking: it prints the download
    message and hands the identifier to that depot. *)
Theorem download_single_depot_no_prompt (cfg : Config) (name version : string)
    (no_check : bool) (n v : string) (i : Identifier.t) (d : TemplateDescriptor.t)
    (w w1 : world) :
  normalize name version = (n, v) ->
  named n cfg <> [] ->
  select_version n v (named n cfg) (after w [Echo msg_fetching]) = (Ok (i, [d]), w1) ->
  let evs :=
    [Echo (msg_downloading (Identifier.name i) (Identifier.version i) (depot_name d)
             (DepotProvider.registrar (TemplateDescriptor.depot d)));
     Download i (TemplateDescriptor.depot d)] in
  download cfg name version "auto" no_check w = (Ok tt, after w1 evs)
  /\ asked evs = false.
Proof.
  intros Hn Hne Hsel evs. subst evs. split; [|reflexivity].
  rewrite (download_checked _ _ _ _ _ n v); try assumption.
  - erewrite bind_ok.
    2:{ erewrite bind_ok by apply filter_depot_auto.
        erewrite bind_ok by exact Hsel. cbv beta iota.
        erewrite bind_ok by (apply select_descriptor_single; now left).
        reflexivity. }
    cbv beta iota. unfold getattr_depot.
    erewrite bind_ok by reflexivity.
    unfold bind, echo, emit, after, depot_name. simpl.
    rewrite <- !app_assoc. reflexivity.
  - rewrite String.eqb_refl, orb_true_r. reflexivity.
Qed.

Lemma download_single_depot_no_prompt_witness :
  normalize "latest" "kernel" = ("kernel", "latest")
  /\ named "kernel" (online_catalog scenario) <> []
  /\ select_version "kernel" "latest" (named "kernel" (online_catalog scenario))
                    (after (fresh []) [Echo msg_fetching])
     = (Ok (Identifier.make "kernel" "1.1.0", [offer "alt"]),
        after (fresh [])
          [Echo msg_fetching; Echo "Resolved kernel latest to kernel 1.1.0"])
  /\ download (online_catalog scenario) "latest" "kernel" "auto" false (fresh [])
     = (Ok tt,
        after (fresh [])
          [Echo msg_fetching;
           Echo "Resolved kernel latest to kernel 1.1.0";
           Echo "Downloading kernel 1.1.0 from alt using github-releases";
           Download (Identifier.make "kernel" "1.1.0") (provider "alt")]).
Proof.
  assert (H1 : normalize "latest" "kernel" = ("kernel", "latest")) by reflexivity.
  assert (H2 : named "kernel" (online_catalog scenario) <> []) by discriminate.
  assert (H3 : select_version "kernel" "latest" (named "kernel" (online_catalog scenario))
                              (after (fresh []) [Echo msg_fetching])
               = (Ok (Identifier.make "kernel" "1.1.0", [offer "alt"]),
                  after (fresh [])
                    [Echo msg_fetching; Echo "Resolved kernel latest to kernel 1.1.0"]))
    by reflexivity.
  refine (conj H1 (conj H2 (conj H3 _))).
  exact (proj1 (download_single_depot_no_prompt (online_catalog scenario)
                  "latest" "kernel" false "kernel" "latest"
                  (Identifier.make "kernel" "1.1.0") (offer "alt") (fresh []) _
                  H1 H2 H3)).
Defined.

(** Spellings of the kernel's name that line 125 accepts, and one it does
    not. *)
Example normalize_spellings :
  normalize "KeRnEl" "1.0.0" = ("kernel", "1.0.0")
  /\ normalize (String (ascii_of_nat 226) (String (ascii_of_nat 132)
                  (String (ascii_of_nat 170) "ERNEL"))) "1.0.0" = ("kernel", "1.0.0")
  /\ normalize "Latest" "kernel" = ("Latest", "kernel").
Proof. repeat split. Qed.

(** ** The prompt of [download] *)

Lemma str_nonempty (k : nat) : str k <> "".
Proof.
  unfold str, NilZero.string_of_uint.
  destruct (Nat.to_uint k); simpl; discriminate.
Qed.

Lemma int_str (k : nat) : int (str k) = Some k.
Proof.
  unfold int, str, NilZero.string_of_uint.
  pose proof (DecimalNat.Unsigned.of_to k) as Hk.
  destruct (Nat.to_uint k) eqn:E;
    try (rewrite NilEmpty.usu; simpl option_map; now rewrite Hk).
  rewrite <- Hk. reflexivity.
Qed.

Lemma descriptor_eqb_refl (d : TemplateDescriptor.t) : TemplateDescriptor.eqb d d = true.
Proof.
  unfold TemplateDescriptor.eqb, DepotProvider.eqb, DepotConfig.eqb.
  now rewrite !String.eqb_refl, !Bool.eqb_reflx.
Qed.

Lemma descriptor_eqb_name (a b : TemplateDescriptor.t) :
  TemplateDescriptor.eqb a b = true -> depot_name a = depot_name b.
Proof.
  unfold TemplateDescriptor.eqb, DepotProvider.eqb, DepotConfig.eqb, depot_name.
  rewrite !andb_true_iff. intros [[[[[H _] _] _] _] _]. now apply String.eqb_eq.
Qed.

Lemma index_from_found {A} (eqb : A -> A -> bool) (pre suf : list A) (x : A) (n : nat)
    (w : world) :
  (forall y, In y pre -> eqb y x = false) -> eqb x x = true ->
  index_from eqb x (pre ++ x :: suf) n w = (Ok (n + length pre), w).
Proof.
  revert n. induction pre as [|y pre IH]; intros n Hpre Hx; simpl.
  - rewrite Hx, Nat.add_0_r. reflexivity.
  - rewrite (Hpre y) by now left.
    rewrite IH; [|intros z Hz; apply Hpre; now right|assumption].
    now rewrite Nat.add_succ_r.
Qed.

(** With distinct depot names, [descriptors.index(desc)] is the position
    of [desc]: the rows of line 176 before they are sorted. *)
Lemma rows_numbered (pre suf : list TemplateDescriptor.t) (w : world) :
  NoDup (map depot_name (pre ++ suf)) ->
  mapM (fun desc => i <- index TemplateDescriptor.eqb (pre ++ suf) desc ;;
                    ret (i, depot_name desc)) suf w
  = (Ok (numbered (length pre) (map depot_name suf)), w).
Proof.
  revert pre. induction suf as [|x suf IH]; intros pre Hnd; [reflexivity|].
  cbn [mapM].
  erewrite bind_ok.
  2:{ erewrite bind_ok; [reflexivity|].
      unfold index. rewrite index_from_found; [reflexivity| |apply descriptor_eqb_refl].
      intros y Hy. destruct (TemplateDescriptor.eqb y x) eqn:E; [|reflexivity].
      exfalso. apply descriptor_eqb_name in E.
      rewrite map_app in Hnd. simpl in Hnd. apply NoDup_remove_2 in Hnd.
      apply Hnd. apply in_or_app. left. rewrite <- E. now apply in_map. }
  assert (Eapp : pre ++ x :: suf = (pre ++ [x]) ++ suf)
    by (now rewrite <- app_assoc).
  rewrite Eapp in *.
  erewrite bind_ok by (now apply IH).
  unfold ret, numbered. rewrite length_app. simpl.
  now rewrite Nat.add_1_r.
Qed.

Lemma insert_length {A} (key : A -> string) (x : A) (l : list A) :
  length (insert key x l) = S (length l).
Proof.
  induction l as [|y l IH]; simpl; [reflexivity|].
  destruct (key x <=? key y)%string; simpl; [reflexivity|now rewrite IH].
Qed.

Lemma sorted_length {A} (key : A -> string) (l : list A) :
  length (sorted key l) = length l.
Proof.
  induction l as [|x l IH]; simpl; [reflexivity|].
  now rewrite insert_length, IH.
Qed.

Lemma in_numbered_value {A} (n k : nat) (x : A) (l : list A) :
  In (k, x) (numbered n l) -> In x l.
Proof. unfold numbered. apply in_combine_r. Qed.

Lemma in_numbered_position {A} (n k : nat) (l : list A) :
  k < length l -> exists x, In (n + k, x) (numbered n l).
Proof.
  revert n k. induction l as [|y l IH]; intros n k Hk; simpl in Hk; [lia|].
  destruct k as [|k].
  - exists y. left. now rewrite Nat.add_0_r.
  - destruct (IH (S n) k) as [x Hx]; [lia|].
    exists x. right. now rewrite Nat.add_succ_r.
Qed.

Lemma in_numbered_name {A} (n : nat) (x : A) (l : list A) :
  In x l -> exists k, In (k, x) (numbered n l).
Proof.
  revert n. induction l as [|y l IH]; intros n Hin; [destruct Hin|].
  destruct Hin as [->|Hin].
  - exists n. now left.
  - destruct (IH (S n) Hin) as [k Hk]. exists k. now right.
Qed.

Lemma in_depot_table (ds : list TemplateDescriptor.t) (row : nat * string) :
  In row (depot_table ds) <-> In row (numbered 0 (map depot_name ds)).
Proof. apply in_sorted. Qed.

Lemma depot_table_sorted (ds : list TemplateDescriptor.t) :
  StronglySorted (fun a b => (snd a <=? snd b)%string = true) (depot_table ds).
Proof. apply (sorted_sorted snd). Qed.

Lemma getitem_head {A} (l rest : list A) (x : A) (w : world) :
  l = x :: rest -> getitem l 0 w = (Ok x, w).
Proof. now intros ->. Qed.

Lemma click_prompt_reads {B} (text default : string) (choices : list string)
    (k : string -> M B) (w : world) :
  bind (click_prompt text default choices) k w
  = bind (fun w0 => let (r, lines) := read_choice default choices (stdin w0) in
                    (r, World (trace w0) lines (depots w0)))
         k (after w [Prompt text default choices]).
Proof. reflexivity. Qed.

Section Prompt.
Variables (identifier : Identifier.t) (descriptors : list TemplateDescriptor.t).
Hypothesis distinct : NoDup (map depot_name descriptors).
Hypothesis several : descriptors <> [].

Lemma depot_table_first :
  exists first rest, depot_table descriptors = first :: rest.
Proof.
  destruct (depot_table descriptors) as [|first rest] eqn:E; [|now exists first, rest].
  exfalso. apply several.
  assert (H : length (depot_table descriptors) = length descriptors).
  { unfold depot_table. rewrite sorted_length. unfold numbered.
    rewrite length_combine, length_seq, length_map. apply Nat.min_id. }
  rewrite E in H. destruct descriptors; [reflexivity|discriminate].
Qed.

Lemma ask_depot_reads (w : world) (first : nat * string) (rest : list (nat * string)) :
  depot_table descriptors = first :: rest ->
  ask_depot identifier descriptors w
  = bind (fun w0 =>
            let (r, lines) :=
              read_choice (snd first)
                (map (fun '(i, n) => str i) (depot_table descriptors)
                 ++ map (fun '(i, n) => n) (depot_table descriptors)) (stdin w0) in
            (r, World (trace w0) lines (depots w0)))
         (fun result =>
            if mem result (map (fun '(i, n) => str i) (depot_table descriptors)) then
              n <- match int result with Some n => ret n | None => raise ValueError end ;;
              row <- getitem (depot_table descriptors) n ;;
              d <- getitem (filter (fun d => depot_name d =? snd row) descriptors) 0 ;;
              ret (Descriptor d)
            else
              d <- getitem (filter (fun d => depot_name d =? result) descriptors) 0 ;;
              ret (Descriptor d))
         (after w (asking identifier descriptors first)).
Proof.
  intros E. unfold ask_depot, echo.
  erewrite bind_ok by apply emit_after.
  erewrite bind_ok by (apply (rows_numbered [] descriptors); exact distinct).
  cbn [length]. fold (depot_table descriptors).
  erewrite bind_ok by apply emit_after.
  erewrite bind_ok by (eapply getitem_head; exact E).
  rewrite click_prompt_reads, !after_after. reflexivity.
Qed.

Lemma in_table_names (row : nat * string) :
  In row (depot_table descriptors) -> In (snd row) (map depot_name descriptors).
Proof.
  intros H. apply in_depot_table in H. destruct row as [k nm].
  now apply in_numbered_value in H.
Qed.

Lemma choice_of_name (nm : string) :
  In nm (map depot_name descriptors) ->
  mem nm (map (fun '(i, n) => str i) (depot_table descriptors)
          ++ map (fun '(i, n) => n) (depot_table descriptors)) = true.
Proof.
  intros H. apply mem_In, in_or_app. right.
  destruct (in_numbered_name 0 nm _ H) as [k Hk].
  apply in_map_iff. exists (k, nm). split; [reflexivity|]. now apply in_depot_table.
Qed.

Lemma choice_of_index (k : nat) :
  k < length descriptors ->
  mem (str k) (map (fun '(i, n) => str i) (depot_table descriptors)) = true.
Proof.
  intros H. apply mem_In.
  destruct (in_numbered_position 0 k (map depot_name descriptors)) as [nm Hnm];
    [now rewrite length_map|].
  apply in_map_iff. exists (k, nm). split; [reflexivity|]. now apply in_depot_table.
Qed.

Lemma depot_table_length : length (depot_table descriptors) = length descriptors.
Proof.
  unfold depot_table. rewrite sorted_length. unfold numbered.
  rewrite length_combine, length_seq, length_map. apply Nat.min_id.
Qed.

(** X4. When [download] asks for a depot among descriptors on distinct
    depots, it prints the table of the depot names with the positions of
    their descriptors, sorted by name, and proposes the first name of the
    table.  An answer that is the name of one of the depots (and not one
    of the numbers printed), or the empty answer, which stands for the
    proposed name, selects the descriptor on that depot. *)
Theorem ask_depot_by_name (w : world) (answer : string) (lines : list string) :
  stdin w = answer :: lines ->
  answer = "" \/ In answer (map depot_name descriptors) ->
  exists first d,
    hd_error (depot_table descriptors) = Some first
    /\ (forall row, In row (depot_table descriptors) ->
                    (snd first <=? snd row)%string = true)
    /\ In d descriptors
    /\ (mem (if answer =? "" then snd first else answer)
            (map (fun '(i, n) => str i) (depot_table descriptors)) = false ->
        depot_name d = (if answer =? "" then snd first else answer)
        /\ ask_depot identifier descriptors w
           = (Ok (Descriptor d), World (trace w ++ asking identifier descriptors first) lines (depots w))).
Proof.
  intros Hin Hans.
  destruct depot_table_first as [first [rest E]].
  assert (Hfirst : In (snd first) (map depot_name descriptors)).
  { apply in_table_names. rewrite E. now left. }
  set (value := if answer =? "" then snd first else answer).
  assert (Hval : In value (map depot_name descriptors)).
  { unfold value. destruct (String.eqb_spec answer ""); [assumption|].
    destruct Hans; [contradiction|assumption]. }
  destruct (filter_single_depot value descriptors distinct Hval) as [d [Hf [Hd Hn]]].
  exists first, d. split; [now rewrite E|]. split.
  { intros row Hrow.
    destruct (sorted_head_least snd (numbered 0 (map depot_name descriptors)) first rest E)
      as [_ Hleast].
    apply Hleast. now apply in_depot_table. }
  split; [exact Hd|]. intros Hnum. split; [exact Hn|].
  rewrite (ask_depot_reads w first rest E).
  erewrite bind_ok.
  2:{ cbn [after stdin]. rewrite Hin. cbn [read_choice]. fold value.
      rewrite (choice_of_name value Hval). reflexivity. }
  cbv beta. fold value in Hnum. rewrite Hnum, Hf. reflexivity.
Qed.

(** X5. An answer that is the number [k] of a descriptor is read as a row
    number: it selects the descriptor on the depot of row [k] of the sorted
    table, whatever number is printed in that row. *)
Theorem ask_depot_by_index (w : world) (k : nat) (lines : list string) :
  stdin w = str k :: lines ->
  k < length descriptors ->
  exists first row d,
    hd_error (depot_table descriptors) = Some first
    /\ nth_error (depot_table descriptors) k = Some row
    /\ In d descriptors /\ depot_name d = snd row
    /\ ask_depot identifier descriptors w
       = (Ok (Descriptor d), World (trace w ++ asking identifier descriptors first) lines (depots w)).
Proof.
  intros Hin Hk.
  destruct depot_table_first as [first [rest E]].
  destruct (nth_error (depot_table descriptors) k) as [row|] eqn:Erow.
  2:{ apply nth_error_None in Erow. rewrite depot_table_length in Erow. lia. }
  assert (Hrow : In (snd row) (map depot_name descriptors)).
  { apply in_table_names. now apply nth_error_In with k. }
  destruct (filter_single_depot (snd row) descriptors distinct Hrow) as [d [Hf [Hd Hn]]].
  exists first, row, d. split; [now rewrite E|]. split; [reflexivity|].
  split; [exact Hd|]. split; [exact Hn|].
  rewrite (ask_depot_reads w first rest E).
  erewrite bind_ok.
  2:{ cbn [after stdin]. rewrite Hin. cbn [read_choice].
      pose proof (str_nonempty k) as Hne. apply String.eqb_neq in Hne. rewrite Hne.
      unfold mem at 1. rewrite existsb_app. fold (mem (str k)
        (map (fun '(i, n) => str i) (depot_table descriptors))).
      rewrite (choice_of_index k Hk). reflexivity. }
  cbv beta. rewrite (choice_of_index k Hk), int_str.
  erewrite bind_ok by reflexivity.
  erewrite bind_ok by (unfold getitem; rewrite Erow; reflexivity).
  rewrite Hf. reflexivity.
Qed.
End Prompt.

Lemma ask_depot_by_name_witness :
  NoDup (map depot_name [offer "zeta"; offer "alpha"])
  /\ [offer "zeta"; offer "alpha"] <> []
  /\ stdin (fresh ["zeta"]) = "zeta" :: []
  /\ ("zeta" = "" \/ In "zeta" (map depot_name [offer "zeta"; offer "alpha"]))
  /\ exists first d,
       hd_error (depot_table [offer "zeta"; offer "alpha"]) = Some first
       /\ depot_name d = "zeta"
       /\ ask_depot (Identifier.make "kernel" "1.0.0") [offer "zeta"; offer "alpha"]
                    (fresh ["zeta"])
          = (Ok (Descriptor d),
             World (asking (Identifier.make "kernel" "1.0.0")
                           [offer "zeta"; offer "alpha"] first)
                   [] (depots (fresh []))).
Proof.
  assert (H1 : NoDup (map depot_name [offer "zeta"; offer "alpha"])).
  { repeat constructor; simpl; intuition discriminate. }
  assert (H2 : [offer "zeta"; offer "alpha"] <> []) by discriminate.
  assert (H3 : stdin (fresh ["zeta"]) = "zeta" :: []) by reflexivity.
  assert (H4 : "zeta" = "" \/ In "zeta" (map depot_name [offer "zeta"; offer "alpha"]))
    by (right; now left).
  refine (conj H1 (conj H2 (conj H3 (conj H4 _)))).
  destruct (ask_depot_by_name (Identifier.make "kernel" "1.0.0")
              [offer "zeta"; offer "alpha"] H1 H2 (fresh ["zeta"]) "zeta" [] H3 H4)
    as [first [d [Hfirst [_ [_ Hrun]]]]].
  exists first, d. split; [exact Hfirst|].
  apply Hrun.
  injection Hfirst as <-. reflexivity.
Defined.

Lemma ask_depot_by_index_witness :
  NoDup (map depot_name [offer "zeta"; offer "alpha"])
  /\ [offer "zeta"; offer "alpha"] <> []
  /\ stdin (fresh ["0"]) = str 0 :: []
  /\ 0 < length [offer "zeta"; offer "alpha"]
  /\ exists first d,
       depot_name d = "alpha"
       /\ ask_depot (Identifier.make "kernel" "1.0.0") [offer "zeta"; offer "alpha"]
                    (fresh ["0"])
          = (Ok (Descriptor d),
             World (asking (Identifier.make "kernel" "1.0.0")
                           [offer "zeta"; offer "alpha"] first)
                   [] (depots (fresh []))).
Proof.
  assert (H1 : NoDup (map depot_name [offer "zeta"; offer "alpha"])).
  { repeat constructor; simpl; intuition discriminate. }
  assert (H2 : [offer "zeta"; offer "alpha"] <> []) by discriminate.
  assert (H3 : stdin (fresh ["0"]) = str 0 :: []) by reflexivity.
  assert (H4 : 0 < length [offer "zeta"; offer "alpha"]) by (simpl; lia).
  refine (conj H1 (conj H2 (conj H3 (conj H4 _)))).
  destruct (ask_depot_by_index (Identifier.make "kernel" "1.0.0")
              [offer "zeta"; offer "alpha"] H1 H2 (fresh ["0"]) 0 [] H3 H4)
    as [first [row [d [_ [Hrow [_ [Hn Hrun]]]]]]].
  exists first, d. split; [|exact Hrun].
  injection Hrow as <-. exact Hn.
Defined.

(** * Further properties *)

(** ** Runs of a command, step by step *)

Lemma bind_inv {A B} (m : M A) (k : A -> M B) (w w' : world) (r : result B) :
  bind m k w = (r, w') ->
  (exists a w1, m w = (Ok a, w1) /\ k a w1 = (r, w'))
  \/ (exists e, m w = (Raise e, w') /\ r = Raise e).
Proof.
  unfold bind. destruct (m w) as [[a|e] w1]; intros H.
  - left. now exists a, w1.
  - right. exists e. now injection H as <- <-.
Qed.

Lemma input_left_refl (reads : bool) (l : list string) : input_left reads l l.
Proof. destruct reads; simpl; [now exists []|reflexivity]. Qed.

Lemma input_left_trans (reads : bool) (a b c : list string) :
  input_left reads a b -> input_left reads b c -> input_left reads a c.
Proof.
  destruct reads; simpl.
  - intros [r1 ->] [r2 ->]. exists (r1 ++ r2). now rewrite app_assoc.
  - congruence.
Qed.

Section Frame.
Variables (P : event -> bool) (reads : bool).

Lemma grows_refl (w : world) : grows P reads w w.
Proof.
  split; [reflexivity|]. split; [apply input_left_refl|].
  exists []. split; [now rewrite app_nil_r|reflexivity].
Qed.

Lemma grows_trans (w1 w2 w3 : world) :
  grows P reads w1 w2 -> grows P reads w2 w3 -> grows P reads w1 w3.
Proof.
  intros [D1 [I1 [e1 [T1 F1]]]] [D2 [I2 [e2 [T2 F2]]]].
  split; [congruence|]. split; [now apply input_left_trans with (stdin w2)|].
  exists (e1 ++ e2). split.
  - now rewrite T2, T1, app_assoc.
  - now rewrite forallb_app, F1, F2.
Qed.

Lemma grows_after (w : world) (evs : list event) :
  forallb P evs = true -> grows P reads w (after w evs).
Proof.
  intros H. split; [reflexivity|]. split; [apply input_left_refl|]. now exists evs.
Qed.

Lemma framed_ret {A} (a : A) : framed P reads (ret a).
Proof. intros w r w' H. injection H as <- <-. apply grows_refl. Qed.

Lemma framed_raise {A} (e : exn) : framed P reads (@raise A e).
Proof. intros w r w' H. injection H as <- <-. apply grows_refl. Qed.

Lemma framed_bind {A B} (m : M A) (k : A -> M B) :
  framed P reads m -> (forall a, framed P reads (k a)) -> framed P reads (bind m k).
Proof.
  intros Hm Hk w r w' H. apply bind_inv in H.
  destruct H as [[a [w1 [H1 H2]]]|[e [H1 _]]].
  - apply grows_trans with w1; [now apply Hm in H1|now apply Hk in H2].
  - now apply Hm in H1.
Qed.

Lemma framed_emit (e : event) : P e = true -> framed P reads (emit e).
Proof.
  intros He w r w' H. rewrite emit_after in H. injection H as <- <-.
  apply grows_after. simpl. now rewrite He.
Qed.

Lemma framed_when (b : bool) (m : M unit) : framed P reads m -> framed P reads (when b m).
Proof. destruct b; simpl; [trivial|intros _; apply framed_ret]. Qed.

Lemma framed_getitem {A} (xs : list A) (n : nat) : framed P reads (getitem xs n).
Proof. unfold getitem. destruct (nth_error xs n); [apply framed_ret|apply framed_raise]. Qed.

Lemma framed_popitem {A} (xs : list A) : framed P reads (popitem xs).
Proof. unfold popitem. destruct (rev xs); [apply framed_raise|apply framed_ret]. Qed.

Lemma framed_load {A} (variable : string) (v : option A) : framed P reads (load variable v).
Proof. destruct v; [apply framed_ret|apply framed_raise]. Qed.

Lemma framed_index_from {A} (eqb : A -> A -> bool) (x : A) (xs : list A) (n : nat) :
  framed P reads (index_from eqb x xs n).
Proof.
  revert n. induction xs as [|y xs IH]; intros n; simpl; [apply framed_raise|].
  destruct (eqb y x); [apply framed_ret|apply IH].
Qed.

Lemma framed_mapM {A B} (f : A -> M B) (xs : list A) :
  (forall x, framed P reads (f x)) -> framed P reads (mapM f xs).
Proof.
  intros Hf. induction xs as [|x xs IH]; simpl; [apply framed_ret|].
  apply framed_bind; [apply Hf|]. intros y.
  apply framed_bind; [apply IH|]. intros ys. apply framed_ret.
Qed.

Lemma framed_filterM {A} (p : A -> M bool) (xs : list A) :
  (forall x, framed P reads (p x)) -> framed P reads (filterM p xs).
Proof.
  intros Hp. induction xs as [|x xs IH]; simpl; [apply framed_ret|].
  apply framed_bind; [apply Hp|]. intros b.
  apply framed_bind; [apply IH|]. intros ys. apply framed_ret.
Qed.

Lemma framed_get_depot_config (name : string) : framed P reads (get_depot_config name).
Proof.
  intros w r w' H. unfold get_depot_config in H.
  destruct (find _ (depots w)); injection H as <- <-; apply grows_refl.
Qed.
End Frame.

Lemma framed_click_prompt (P : event -> bool) (text default : string)
    (choices : list string) :
  P (Prompt text default choices) = true ->
  framed P true (click_prompt text default choices).
Proof.
  intros HP. unfold click_prompt. apply framed_bind; [now apply framed_emit|].
  intros _ w r w' H.
  assert (G : forall lines r0 rest, read_choice default choices lines = (r0, rest) ->
                                    exists read, lines = read ++ rest).
  { induction lines as [|l lines IH]; simpl; intros r0 rest E.
    - injection E as <- <-. now exists [].
    - destruct (mem _ choices).
      + injection E as <- <-. now exists [l].
      + destruct (IH _ _ E) as [read ->]. now exists (l :: read). }
  destruct (read_choice default choices (stdin w)) as [r0 rest] eqn:E.
  injection H as <- <-.
  split; [reflexivity|]. split; [exact (G _ _ _ E)|].
  exists []. split; [simpl; now rewrite app_nil_r|reflexivity].
Qed.

(** Steps through a goal [framed P reads m], one construct of [m] at a time. *)
Ltac framed_step :=
  first
    [ apply framed_ret | apply framed_raise
    | apply framed_emit; reflexivity
    | apply framed_getitem | apply framed_popitem | apply framed_load
    | apply framed_get_depot_config
    | apply framed_click_prompt; reflexivity
    | apply framed_index_from
    | apply framed_when
    | apply framed_mapM; intros
    | apply framed_filterM; intros
    | apply framed_bind; [|intros]
    | match goal with
      | |- framed _ _ (if ?b then _ else _) => destruct b
      | |- framed _ _ (match ?x with _ => _ end) => destruct x
      | |- framed _ _ (let '(_, _) := ?x in _) => destruct x
      end ].

Ltac framed_all := unfold echo, debug, abort, index; repeat framed_step.

Lemma framed_select_descriptor (name version depot : string) (i : Identifier.t)
    (ds : list TemplateDescriptor.t) :
  framed is_dialogue true (select_descriptor name version depot i ds).
Proof. unfold select_descriptor, ask_depot. framed_all. Qed.

Lemma framed_select_version (name version : string) (listing : Listing) :
  framed is_dialogue true (select_version name version listing).
Proof. unfold select_version. framed_all. Qed.

Lemma framed_filter_depot (name depot : string) (listing : Listing) :
  framed is_dialogue true (filter_depot name depot listing).
Proof. unfold filter_depot. framed_all. Qed.

(** ** What a run of [download] does and selects *)

Ltac framed_download :=
  unfold echo, debug, abort, index;
  repeat first [ apply framed_select_descriptor | apply framed_select_version
               | apply framed_filter_depot | framed_step ].

(** X6. Whatever the request and the listing, and however the run ends, a
    run of [download] leaves the depot registry as it was, only reads the
    input, and adds to the trace messages, tables and prompts, followed by
    one download when the run succeeds and by nothing when it fails: a
    failed run has downloaded nothing, a successful one exactly once, as its
    last act. *)
Theorem download_effects (cfg : Config) (name version depot : string) (no_check : bool)
    (w w' : world) (r : result unit) :
  download cfg name version depot no_check w = (r, w') ->
  depots w' = depots w
  /\ (exists read, stdin w = read ++ stdin w')
  /\ exists talk,
       forallb is_dialogue talk = true
       /\ match r with
          | Ok _ => exists i d, trace w' = trace w ++ talk ++ [Download i d]
          | Raise _ => trace w' = trace w ++ talk
          end.
Proof.
  unfold download. destruct (normalize name version) as [n v]. intros H.
  apply bind_inv in H.
  match type of H with
  | (exists a w1, ?m w = _ /\ _) \/ _ =>
      assert (G : framed is_dialogue true m) by (cbv zeta; framed_download)
  end.
  destruct H as [[[i dv] [w1 [H1 H2]]]|[e [H1 ->]]];
    destruct (G _ _ _ H1) as [D [I [talk [T F]]]].
  - destruct dv as [d|ds]; simpl in H2; injection H2 as <- <-.
    + split; [exact D|]. split; [exact I|].
      exists (talk ++ [Echo (msg_downloading (Identifier.name i) (Identifier.version i)
                              (DepotConfig.name (DepotProvider.config
                                                   (TemplateDescriptor.depot d)))
                              (DepotProvider.registrar (TemplateDescriptor.depot d)))]).
      split; [rewrite forallb_app, F; reflexivity|].
      exists i, (TemplateDescriptor.depot d). simpl. rewrite T, <- !app_assoc. reflexivity.
    + split; [exact D|]. split; [exact I|]. now exists talk.
  - split; [exact D|]. split; [exact I|]. now exists talk.
Qed.

(** Takes a successful run of [bind m k] apart. *)
Ltac bind_ok_inv H a w1 Hm :=
  apply bind_inv in H;
  destruct H as [[a [w1 [Hm H]]]|[? [_ H]]]; [|discriminate H].

Lemma popitem_in {A} (l : list A) (x : A) (w w1 : world) :
  popitem l w = (Ok x, w1) -> In x l.
Proof.
  unfold popitem. destruct (rev l) as [|y l'] eqn:E; intros H; [discriminate|].
  injection H as <- _. apply in_rev. rewrite E. now left.
Qed.

Lemma getitem_in {A} (l : list A) (n : nat) (x : A) (w w1 : world) :
  getitem l n w = (Ok x, w1) -> In x l.
Proof.
  unfold getitem. destruct (nth_error l n) as [y|] eqn:E; intros H; [|discriminate].
  injection H as <- _. now apply nth_error_In with n.
Qed.

Lemma when_ok (b : bool) (m : M unit) (u : unit) (w w1 : world) :
  (forall w0 u0 w0', m w0 <> (Ok u0, w0')) ->
  when b m w = (Ok u, w1) -> b = false /\ w1 = w.
Proof.
  intros Hm H. destruct b; simpl in H; [now apply Hm in H|].
  injection H as _ <-. now split.
Qed.

Lemma echo_abort_fails (s : string) (w : world) (u : unit) (w' : world) :
  (echo s ;; @abort unit) w <> (Ok u, w').
Proof. discriminate. Qed.

Lemma filter_depot_ok (name depot : string) (listing listing' : Listing) (w w1 : world) :
  filter_depot name depot listing w = (Ok listing', w1) ->
  (depot = "auto" /\ listing' = listing)
  \/ (depot <> "auto" /\ In depot (depot_names listing)
      /\ listing' = on_depot depot listing).
Proof.
  unfold filter_depot. destruct (String.eqb_spec depot "auto") as [->|Hd]; simpl.
  - intros H. injection H as <- _. now left.
  - intros H. bind_ok_inv H u w2 Hw.
    apply when_ok in Hw; [|intros; apply echo_abort_fails].
    destruct Hw as [Hmem _]. apply negb_false_iff, mem_In in Hmem.
    injection H as <- _. right. now repeat split.
Qed.

Lemma select_version_ok (name version : string) (listing : Listing) (i : Identifier.t)
    (ds : list TemplateDescriptor.t) (w w1 : world) :
  select_version name version listing w = (Ok (i, ds), w1) ->
  In (i, ds) listing /\ (version <> "latest" -> Identifier.version i = version).
Proof.
  unfold select_version. destruct (String.eqb_spec version "latest") as [->|Hv].
  - intros H. bind_ok_inv H x w2 Hp. destruct x as [i0 ds0].
    apply popitem_in, in_sorted in Hp.
    unfold bind, echo, emit, ret in H. injection H as <- <- _.
    split; [assumption|congruence].
  - intros H. bind_ok_inv H u w2 Hw.
    apply getitem_in, filter_In in H. destruct H as [Hin Hv'].
    apply String.eqb_eq in Hv'. now split.
Qed.

Lemma ask_depot_ok (i : Identifier.t) (ds : list TemplateDescriptor.t)
    (v : descriptor_value) (w w1 : world) :
  ask_depot i ds w = (Ok v, w1) -> exists d, v = Descriptor d /\ In d ds.
Proof.
  unfold ask_depot. intros H.
  bind_ok_inv H u0 w2 H0. bind_ok_inv H rows w3 H1. bind_ok_inv H u1 w4 H2.
  bind_ok_inv H row0 w5 H3. bind_ok_inv H answer w6 H4.
  destruct (mem answer _).
  - bind_ok_inv H n w7 H5. bind_ok_inv H row w8 H6. bind_ok_inv H d w9 H7.
    injection H as <- _. exists d. split; [reflexivity|].
    apply getitem_in, filter_In in H7. tauto.
  - bind_ok_inv H d w7 H5.
    injection H as <- _. exists d. split; [reflexivity|].
    apply getitem_in, filter_In in H5. tauto.
Qed.

Lemma select_descriptor_ok (name version depot : string) (i : Identifier.t)
    (ds : list TemplateDescriptor.t) (d : TemplateDescriptor.t) (w w1 : world) :
  select_descriptor name version depot i ds w = (Ok (Descriptor d), w1) -> In d ds.
Proof.
  unfold select_descriptor. intros H. bind_ok_inv H u w2 Hw.
  destruct (1 <? length ds)%nat.
  - destruct (_ && _).
    + discriminate H.
    + apply ask_depot_ok in H. destruct H as [d' [E Hin]]. now injection E as ->.
  - bind_ok_inv H d0 w3 Hg. apply getitem_in in Hg.
    destruct (_ || _); [|discriminate H].
    injection H as <- _. exact Hg.
Qed.

(** X7. When [download] consults the listing and succeeds, what it
    downloads is what was asked for: an identifier of the listing with the
    requested name, of the requested version unless that was "latest", from
    a depot that offers this identifier in the listing, and from the
    requested depot unless that was "auto". *)
Theorem download_sound (cfg : Config) (name version depot : string) (no_check : bool)
    (n v : string) (w w' : world) :
  normalize name version = (n, v) ->
  v = "latest" \/ depot = "auto" \/ no_check = false ->
  download cfg name version depot no_check w = (Ok tt, w') ->
  exists i ds d,
    In (i, ds) (get_available_templates cfg (template_type n))
    /\ In d ds
    /\ Identifier.name i = n
    /\ (v <> "latest" -> Identifier.version i = v)
    /\ (depot <> "auto" -> depot_name d = depot)
    /\ exists before, trace w' = before ++ [Download i (TemplateDescriptor.depot d)].
Proof.
  intros Hn Hc H. unfold download in H. rewrite Hn in H.
  assert (Ec : (v =? "latest") || (depot =? "auto") || negb no_check = true).
  { destruct Hc as [->|[->| ->]]; [reflexivity| |apply orb_true_r].
    rewrite String.eqb_refl, orb_true_r. reflexivity. }
  rewrite Ec in H. fold (named n cfg) in H.
  bind_ok_inv H x w1 Hres. destruct x as [i dv].
  bind_ok_inv Hres u0 w2 H0. bind_ok_inv Hres u1 w3 H1.
  bind_ok_inv Hres listing w4 H2. bind_ok_inv Hres x w5 H3. destruct x as [i0 ds'].
  bind_ok_inv Hres dv0 w6 H4. injection Hres as -> -> _.
  destruct dv as [d|l]; [|discriminate H].
  apply select_descriptor_ok in H4. apply select_version_ok in H3.
  destruct H3 as [Hin Hver].
  assert (G : exists ds, In (i, ds) (named n cfg) /\ In d ds
                         /\ (depot <> "auto" -> depot_name d = depot)).
  { apply filter_depot_ok in H2. destruct H2 as [[-> ->]|[Hd [_ ->]]].
    - exists ds'. now repeat split.
    - apply in_on_depot in Hin. destruct Hin as [ds0 [Hin0 [_ ->]]].
      apply filter_In in H4. destruct H4 as [Hd0 Hname].
      apply String.eqb_eq in Hname. exists ds0. now repeat split. }
  destruct G as [ds [Hnamed [Hd Hdepot]]].
  apply filter_In in Hnamed. destruct Hnamed as [Hcat Hnm]. apply String.eqb_eq in Hnm.
  exists i, ds, d. repeat split; try assumption.
  unfold bind, getattr_depot, ret, echo, emit in H. injection H as <-.
  simpl. eexists. reflexivity.
Qed.

(** ** Requests that [download] turns down *)

Lemma consults_listing (v depot : string) (no_check : bool) :
  v = "latest" \/ depot = "auto" \/ no_check = false ->
  (v =? "latest") || (depot =? "auto") || negb no_check = true.
Proof.
  intros [->|[->| ->]]; [reflexivity| |apply orb_true_r].
  rewrite String.eqb_refl, orb_true_r. reflexivity.
Qed.

Lemma echo_then {A} (s : string) (k : M A) (w : world) :
  (echo s ;; k) w = k (after w [Echo s]).
Proof. reflexivity. Qed.

Lemma echo_abort {A} (s : string) (w : world) :
  (echo s ;; @abort A) w = (Raise Abort, after w [Echo s]).
Proof. reflexivity. Qed.

(** X8. When [download] consults the listing and the listing has no
    identifier of the requested name, the command prints that no templates
    were found with that name and aborts, whatever the version and the
    depot of the request are. *)
Theorem download_name_not_found (cfg : Config) (name version depot : string)
    (no_check : bool) (n v : string) (w : world) :
  normalize name version = (n, v) ->
  v = "latest" \/ depot = "auto" \/ no_check = false ->
  (forall i ds, In (i, ds) (get_available_templates cfg (template_type n)) ->
                Identifier.name i <> n) ->
  download cfg name version depot no_check w
  = (Raise Abort, after w [Echo msg_fetching; Echo (msg_no_name n)]).
Proof.
  intros Hn Hc Hnone. unfold download. rewrite Hn, (consults_listing _ _ _ Hc).
  assert (E : filter (fun '(i, d) => Identifier.name i =? n)
                     (get_available_templates cfg (template_type n)) = []).
  { induction (get_available_templates cfg (template_type n)) as [|[i ds] l IH];
      [reflexivity|]. simpl.
    destruct (String.eqb_spec (Identifier.name i) n) as [E|_].
    - exfalso. apply (Hnone i ds); [now left|exact E].
    - apply IH. intros i' ds' Hin. apply (Hnone i' ds'). now right. }
  rewrite E. erewrite bind_raise; [reflexivity|].
  rewrite echo_then. erewrite bind_raise; [reflexivity|].
  simpl when. rewrite echo_abort, after_after. reflexivity.
Qed.

(** X9. The version is looked for after the depot has narrowed the
    listing: for an explicit version, when the listing is consulted, has
    identifiers of the requested name, the depot is "auto" or offers that
    name, and no identifier of that name and version is offered (on the
    requested depot, when there is one), the command prints that no
    templates were found with that version and aborts. *)
Theorem download_version_not_found (cfg : Config) (name version depot : string)
    (no_check : bool) (n v : string) (w : world) :
  normalize name version = (n, v) ->
  v <> "latest" ->
  depot = "auto" \/ no_check = false ->
  named n cfg <> [] ->
  (depot <> "auto" -> In depot (depot_names (named n cfg))) ->
  (forall i ds, In (i, ds) (named n cfg) -> Identifier.version i = v ->
                depot <> "auto" /\ ~ In depot (map depot_name ds)) ->
  download cfg name version depot no_check w
  = (Raise Abort, after w [Echo msg_fetching; Echo (msg_no_version n v)]).
Proof.
  intros Hn Hv Hd Hne Hin Hnone.
  rewrite (download_checked _ _ _ _ _ n v); try assumption.
  2:{ apply consults_listing. tauto. }
  erewrite bind_raise; [reflexivity|].
  assert (G : forall (listing : Listing) w0,
             (forall i ds, In (i, ds) listing -> Identifier.version i <> v) ->
             select_version n v listing w0
             = (Raise Abort, after w0 [Echo (msg_no_version n v)])).
  { intros listing w0 Hno. unfold select_version.
    apply String.eqb_neq in Hv. rewrite Hv.
    assert (E : mem v (map (fun '(i, d) => Identifier.version i) listing) = false).
    { apply mem_false. intros Hm. apply in_map_iff in Hm.
      destruct Hm as [[i ds] [E Hm]]. now apply (Hno i ds). }
    rewrite E. reflexivity. }
  destruct (String.eqb_spec depot "auto") as [->|Ha].
  - erewrite bind_ok by apply filter_depot_auto.
    erewrite bind_raise; [reflexivity|]. rewrite G; [now rewrite after_after|].
    intros i ds Hi E. destruct (Hnone i ds Hi E) as [Hauto _]. now apply Hauto.
  - erewrite bind_ok by (apply filter_depot_hosted; auto).
    erewrite bind_raise; [reflexivity|]. rewrite G; [now rewrite after_after|].
    intros i ds Hi E. apply in_on_depot in Hi. destruct Hi as [ds0 [Hi [Hm _]]].
    destruct (Hnone i ds0 Hi E) as [_ Hno]. now apply Hno.
Qed.

(** ** Requests that [download] serves *)

Lemma getitem_all_equal {A} (l : list A) (a : A) (w : world) :
  l <> [] -> (forall x, In x l -> x = a) -> getitem l 0 w = (Ok a, w).
Proof.
  destruct l as [|x l]; [congruence|]. intros _ H.
  rewrite (H x) by now left. reflexivity.
Qed.

(** X10. A fully explicit request that is checked against the listing:
    when the listing has one identifier of the requested name and version,
    and the requested depot is one of the depots that offer it (each at
    most once), [download] takes that identifier from that depot, without
    asking. *)
Theorem download_explicit (cfg : Config) (name version depot : string)
    (n v : string) (i : Identifier.t) (ds : list TemplateDescriptor.t)
    (d : TemplateDescriptor.t) (w : world) :
  normalize name version = (n, v) ->
  v <> "latest" -> depot <> "auto" ->
  In (i, ds) (named n cfg) -> Identifier.version i = v ->
  (forall i' ds', In (i', ds') (named n cfg) -> Identifier.version i' = v ->
                  (i', ds') = (i, ds)) ->
  NoDup (map depot_name ds) -> In d ds -> depot_name d = depot ->
  download cfg name version depot false w
  = (Ok tt,
     after w [Echo msg_fetching;
              Echo (msg_downloading (Identifier.name i) v depot
                      (DepotProvider.registrar (TemplateDescriptor.depot d)));
              Download i (TemplateDescriptor.depot d)]).
Proof.
  intros Hn Hv Ha Hin Hver Huniq Hnd Hd Hname.
  assert (Hne : named n cfg <> []) by (intros E; now rewrite E in Hin).
  assert (Hdep : In depot (map depot_name ds)) by (rewrite <- Hname; now apply in_map).
  assert (Hhost : In depot (depot_names (named n cfg))).
  { apply in_depot_names. now exists i, ds. }
  destruct (filter_single_depot depot ds Hnd Hdep) as [d' [Hf [Hd' Hn']]].
  assert (d' = d) as ->.
  { assert (Hi : In d (filter (fun x => depot_name x =? depot) ds)).
    { apply filter_In. split; [assumption|]. now apply String.eqb_eq. }
    rewrite Hf in Hi. destruct Hi as [E|[]]. exact E. }
  rewrite (download_checked _ _ _ _ _ n v); try assumption;
    [|apply consults_listing; auto].
  erewrite bind_ok.
  2:{ erewrite bind_ok by (now apply filter_depot_hosted).
      erewrite bind_ok.
      2:{ unfold select_version. apply String.eqb_neq in Hv. rewrite Hv.
          assert (Hon : In (i, [d]) (on_depot depot (named n cfg))).
          { apply in_on_depot. exists ds. now rewrite Hf. }
          assert (E : mem v (map (fun '(i0, _) => Identifier.version i0)
                                 (on_depot depot (named n cfg))) = true).
          { apply mem_In, in_map_iff. exists (i, [d]). now split. }
          rewrite E. simpl negb. rewrite bind_when_false.
          apply getitem_all_equal with (a := (i, [d])).
          - intros E0.
            assert (Hi : In (i, [d]) (filter (fun '(i0, _) => Identifier.version i0 =? v)
                                             (on_depot depot (named n cfg)))).
            { apply filter_In. split; [assumption|]. now apply String.eqb_eq. }
            rewrite E0 in Hi. destruct Hi.
          - intros [i' ds'] Hx. apply filter_In in Hx. destruct Hx as [Hx Hv'].
            apply String.eqb_eq in Hv'. apply in_on_depot in Hx.
            destruct Hx as [ds0 [Hx [_ ->]]].
            injection (Huniq i' ds0 Hx Hv') as -> ->. now rewrite Hf. }
      cbv beta iota.
      erewrite bind_ok by (apply select_descriptor_single; now right).
      reflexivity. }
  cbv beta iota. unfold getattr_depot.
  erewrite bind_ok by reflexivity.
  unfold bind, echo, emit, after. simpl.
  unfold depot_name in Hname. rewrite Hname, Hver.
  rewrite <- !app_assoc. reflexivity.
Qed.

Lemma normalize_idempotent (name version n v : string) :
  normalize name version = (n, v) -> normalize n v = (n, v).
Proof.
  unfold normalize. destruct (lower name =? "kernel") eqn:E1.
  - intros H. injection H as <- <-. reflexivity.
  - destruct (name =? "latest") eqn:E2.
    + intros H. injection H as <- <-. reflexivity.
    + intros H. injection H as <- <-. now rewrite E1, E2.
Qed.

(** X11. [download] acts on the normalized request only: a request and the
    request its aliases stand for (as [download latest kernel] and
    [download KERNEL latest] stand for [download kernel latest]) run alike. *)
Theorem download_normalized (cfg : Config) (name version depot : string)
    (no_check : bool) (n v : string) (w : world) :
  normalize name version = (n, v) ->
  download cfg name version depot no_check w = download cfg n v depot no_check w.
Proof.
  intros H. unfold download. now rewrite (normalize_idempotent _ _ _ _ H), H.
Qed.

(** X12. With an explicit version, an explicit depot and --no-check,
    [download] does not look at the listing: two catalogs give the same
    run, and the message that the listing is fetched is not printed. *)
Theorem download_unchecked_ignores_listing (cfg cfg' : Config)
    (name version depot : string) (n v : string) (w w' : world) (r : result unit) :
  normalize name version = (n, v) ->
  v <> "latest" -> depot <> "auto" ->
  download cfg name version depot true w = (r, w') ->
  download cfg' name version depot true w = (r, w')
  /\ exists evs, trace w' = trace w ++ evs /\ ~ In (Echo msg_fetching) evs.
Proof.
  intros Hn Hv Ha. unfold download. rewrite Hn.
  apply String.eqb_neq in Hv, Ha. rewrite Hv, Ha. simpl.
  intros H. split; [exact H|].
  unfold bind, get_depot_config in H.
  destruct (find _ (depots w)).
  - injection H as _ <-. eexists. split; [rewrite <- app_assoc; reflexivity|].
    simpl. unfold msg_fetching, msg_downloading. intros [E|[E|[]]]; discriminate E.
  - injection H as _ <-. exists []. split; [now rewrite app_nil_r|]. intros [].
Qed.

(** ** What a run of [new] or [upgrade] does and selects *)

Lemma grows_quiet (P : event -> bool) (w w' : world) :
  grows P false w w' -> exists talk, forallb P talk = true /\ w' = after w talk.
Proof.
  intros [D [I [talk [T F]]]]. exists talk. split; [exact F|].
  destruct w'. unfold after. simpl in *. now rewrite D, <- I, T.
Qed.

Lemma acts_emit (P act : event -> bool) (e : event) : act e = true -> acts P act (emit e).
Proof.
  intros He w r w' H. rewrite emit_after in H. injection H as <- <-.
  exists []. split; [reflexivity|]. now exists e.
Qed.

Lemma acts_bind {A} (P act : event -> bool) (m : M A) (k : A -> M unit) :
  framed P false m -> (forall a, acts P act (k a)) -> acts P act (bind m k).
Proof.
  intros Hm Hk w r w' H. apply bind_inv in H.
  destruct H as [[a [w1 [H1 H2]]]|[e [H1 ->]]].
  - apply Hm, grows_quiet in H1. destruct H1 as [t1 [F1 ->]].
    apply Hk in H2. destruct H2 as [t2 [F2 H2]].
    exists (t1 ++ t2). split; [now rewrite forallb_app, F1, F2|].
    destruct r.
    + destruct H2 as [e [He ->]]. exists e. split; [exact He|].
      now rewrite after_after, app_assoc.
    + now rewrite H2, after_after.
  - apply Hm, grows_quiet in H1. destruct H1 as [t1 [F1 ->]]. now exists t1.
Qed.

Ltac acts_all :=
  repeat first
    [ apply acts_emit; reflexivity
    | apply acts_bind; [framed_all|intros]
    | match goal with
      | |- acts _ _ (let '(_, _) := ?x in _) => destruct x
      end ].

(** X13. However a run of [new] or [upgrade] ends, it has not asked the
    user anything, not read the input and not touched the depot registry:
    it has printed messages and then, when and only when it succeeds,
    created (upgraded) one project, as its last act. *)
Theorem local_effects (isabs : string -> bool) (abspath : string -> string)
    (cfg : Config) (kernel : pystr) (location : string) (depot : pystr) :
  acts is_message is_create (new isabs abspath cfg kernel location depot)
  /\ acts is_message is_upgrade (upgrade isabs abspath cfg kernel location depot).
Proof.
  split.
  - unfold new. cbv zeta. acts_all.
  - unfold upgrade. cbv zeta. acts_all.
Qed.

Section LocalRuns.
Variables (isabs : string -> bool) (abspath : string -> string).
Variables (cfg : Config) (kernel : pystr) (location : string) (depot : pystr).

Lemma local_no_templates (w : world) :
  get_local_templates cfg TemplateTypes.kernel = [] ->
  new isabs abspath cfg kernel location depot w
    = (Raise Abort, after w [Echo msg_none_downloaded])
  /\ upgrade isabs abspath cfg kernel location depot w
    = (Raise Abort, after w [Echo msg_none_downloaded]).
Proof. intros E. unfold new, upgrade. rewrite E. now split. Qed.

Lemma local_no_hosts (w : world) :
  get_local_templates cfg TemplateTypes.kernel <> [] ->
  py_is depot "auto" = true ->
  hosts (get_local_templates cfg TemplateTypes.kernel) kernel = [] ->
  new isabs abspath cfg kernel location depot w
    = (Raise Abort,
       after w [Echo (msg_none_exist
                        (resolved_version (get_local_templates cfg TemplateTypes.kernel)
                                          kernel))])
  /\ upgrade isabs abspath cfg kernel location depot w
    = (Raise Abort,
       after w [Echo (msg_none_exist
                        (resolved_version (get_local_templates cfg TemplateTypes.kernel)
                                          kernel))]).
Proof.
  intros Hne Hauto Hh.
  assert (Hk : py_is kernel "latest" = false).
  { destruct (py_is kernel "latest") eqn:E; [|reflexivity].
    exfalso. exact (hosts_nonempty_latest _ _ Hne E Hh). }
  assert (Hev : version_events (get_local_templates cfg TemplateTypes.kernel) kernel = []).
  { unfold version_events. now rewrite Hk. }
  unfold hosts in Hh.
  split.
  - unfold new. local_version Hne. rewrite Hauto, Hev, after_nil, Hh. reflexivity.
  - unfold upgrade. local_version Hne. rewrite Hauto, Hev, after_nil, Hh. reflexivity.
Qed.

Lemma local_auto_run (w : world) :
  py_is depot "auto" = true ->
  hosts (get_local_templates cfg TemplateTypes.kernel) kernel <> [] ->
  let templates := get_local_templates cfg TemplateTypes.kernel in
  let said := resolution_events templates kernel depot in
  new isabs abspath cfg kernel location depot w
  = match on_chosen_depot templates kernel with
    | [] =>
        (Raise IndexError,
         after w (said ++ [Echo (msg_none_on_depot (resolved_version templates kernel)
                                   (show (chosen_depot (hosts templates kernel))))]))
    | template :: _ =>
        (Ok tt,
         after w (said
                  ++ [Echo (msg_creating (Identifier.version template)
                              (show (Identifier.depot_registrar template))
                              (destination isabs abspath location));
                      CreateProject template (destination isabs abspath location)]))
    end
  /\ upgrade isabs abspath cfg kernel location depot w
  = match on_chosen_depot templates kernel with
    | [] =>
        (Raise IndexError,
         after w (said ++ [Echo (msg_none_on_depot (resolved_version templates kernel)
                                   (show (chosen_depot (hosts templates kernel))))]))
    | template :: _ =>
        (Ok tt,
         after w (said
                  ++ [Echo (msg_creating (Identifier.version template)
                              (show (Identifier.depot_registrar template))
                              (destination isabs abspath location));
                      UpgradeProject template (destination isabs abspath location)]))
    end.
Proof.
  intros Hauto Hh templates said. subst templates said.
  pose proof (hosts_templates_nonempty _ _ Hh) as Hne.
  unfold on_chosen_depot, resolution_events, destination.
  split.
  - unfold new. local_auto Hne Hauto Hh.
    fold (hosts (get_local_templates cfg TemplateTypes.kernel) kernel).
    destruct (filter _ (hosts (get_local_templates cfg TemplateTypes.kernel) kernel));
      unfold after, bind, ret, getitem, echo, emit; simpl;
      rewrite <- !app_assoc; reflexivity.
  - unfold upgrade. local_auto Hne Hauto Hh.
    fold (hosts (get_local_templates cfg TemplateTypes.kernel) kernel).
    destruct (filter _ (hosts (get_local_templates cfg TemplateTypes.kernel) kernel));
      unfold after, bind, ret, getitem, echo, emit; simpl;
      rewrite <- !app_assoc; reflexivity.
Qed.

(** The four ways the local catalog and the arguments can stand. *)
Lemma local_cases :
  get_local_templates cfg TemplateTypes.kernel = []
  \/ (get_local_templates cfg TemplateTypes.kernel <> [] /\ py_is depot "auto" = false)
  \/ (get_local_templates cfg TemplateTypes.kernel <> [] /\ py_is depot "auto" = true
      /\ hosts (get_local_templates cfg TemplateTypes.kernel) kernel = [])
  \/ (py_is depot "auto" = true
      /\ hosts (get_local_templates cfg TemplateTypes.kernel) kernel <> []).
Proof.
  destruct (get_local_templates cfg TemplateTypes.kernel) as [|t l] eqn:E; [now left|].
  right. destruct (py_is depot "auto"); [|left; split; [discriminate|reflexivity]].
  right. destruct (hosts (t :: l) kernel) eqn:Eh.
  - left. repeat split. discriminate.
  - right. split; [reflexivity|discriminate].
Qed.

(** X14. When [new] or [upgrade] succeeds, the depot argument was the
    "auto" object and the project was made from a template of the local
    catalog: one of the resolved version whose depot is the chosen one (the
    mainline depot when a template of that version comes from it), the
    first such template of the catalog; the destination is the location
    made absolute. *)
Theorem local_sound (w w' : world) :
  new isabs abspath cfg kernel location depot w = (Ok tt, w')
  \/ upgrade isabs abspath cfg kernel location depot w = (Ok tt, w') ->
  let templates := get_local_templates cfg TemplateTypes.kernel in
  py_is depot "auto" = true
  /\ exists template rest before,
       on_chosen_depot templates kernel = template :: rest
       /\ In template templates
       /\ Identifier.version template = resolved_version templates kernel
       /\ Identifier.depot_registrar template = chosen_depot (hosts templates kernel)
       /\ (trace w' = before ++ [CreateProject template (destination isabs abspath location)]
           \/ trace w' = before ++ [UpgradeProject template
                                      (destination isabs abspath location)]).
Proof.
  intros H templates. subst templates.
  destruct local_cases as [E|[[Hne Hauto]|[[Hne [Hauto Hh]]|[Hauto Hh]]]].
  - destruct (local_no_templates w E) as [H1 H2].
    rewrite H1, H2 in H. destruct H; discriminate.
  - destruct (local_without_auto_object isabs abspath cfg kernel location depot w Hne Hauto)
      as [H1 H2].
    rewrite H1, H2 in H. destruct H; discriminate.
  - destruct (local_no_hosts w Hne Hauto Hh) as [H1 H2].
    rewrite H1, H2 in H. destruct H; discriminate.
  - split; [exact Hauto|].
    destruct (local_auto_run w Hauto Hh) as [H1 H2]. rewrite H1, H2 in H. clear H1 H2.
    destruct (on_chosen_depot (get_local_templates cfg TemplateTypes.kernel) kernel)
      as [|template rest] eqn:Ef; [destruct H; discriminate|].
    assert (Hin : In template (on_chosen_depot
                    (get_local_templates cfg TemplateTypes.kernel) kernel))
      by (rewrite Ef; now left).
    apply filter_In in Hin. destruct Hin as [Hin Hdep].
    apply value_eqb_eq in Hdep. apply filter_In in Hin. destruct Hin as [Hin Hv].
    apply String.eqb_eq in Hv.
    exists template, rest,
      (trace w
       ++ resolution_events (get_local_templates cfg TemplateTypes.kernel) kernel depot
       ++ [Echo (msg_creating (Identifier.version template)
                   (show (Identifier.depot_registrar template))
                   (destination isabs abspath location))]).
    split; [reflexivity|]. repeat (split; [assumption|]).
    destruct H as [H|H]; injection H as <-; [left|right];
      simpl; rewrite <- !app_assoc; reflexivity.
Qed.

(** X15. [upgrade] resolves as [new] does: a run of [new] that fails
    leaves [upgrade] failing the same way with the same output, and a run
    that creates a project from a template leaves [upgrade] upgrading the
    same destination from the same template after the same output. *)
Theorem upgrade_mirrors_new (w w' : world) (r : result unit) :
  new isabs abspath cfg kernel location depot w = (r, w') ->
  match r with
  | Raise e => upgrade isabs abspath cfg kernel location depot w = (Raise e, w')
  | Ok _ =>
      exists said template dest,
        w' = after w (said ++ [CreateProject template dest])
        /\ upgrade isabs abspath cfg kernel location depot w
           = (Ok tt, after w (said ++ [UpgradeProject template dest]))
  end.
Proof.
  intros H.
  destruct local_cases as [E|[[Hne Hauto]|[[Hne [Hauto Hh]]|[Hauto Hh]]]].
  - destruct (local_no_templates w E) as [H1 H2].
    rewrite H1 in H. injection H as <- <-. exact H2.
  - destruct (local_without_auto_object isabs abspath cfg kernel location depot w Hne Hauto)
      as [H1 H2].
    rewrite H1 in H. injection H as <- <-. exact H2.
  - destruct (local_no_hosts w Hne Hauto Hh) as [H1 H2].
    rewrite H1 in H. injection H as <- <-. exact H2.
  - destruct (local_auto_run w Hauto Hh) as [H1 H2]. rewrite H1 in H. rewrite H2. clear H1 H2.
    destruct (on_chosen_depot (get_local_templates cfg TemplateTypes.kernel) kernel)
      as [|template rest]; injection H as <- <-; [reflexivity|].
    exists (resolution_events (get_local_templates cfg TemplateTypes.kernel) kernel depot
            ++ [Echo (msg_creating (Identifier.version template)
                        (show (Identifier.depot_registrar template))
                        (destination isabs abspath location))]),
      template, (destination isabs abspath location).
    rewrite <- !app_assoc. now split.
Qed.

(** X16. A version that is not stored: when the catalog is not empty, the
    kernel argument is a version no stored template has and the depot is
    the "auto" object, [new] and [upgrade] print that no templates exist
    for that version and abort. *)
Theorem local_version_not_stored (w : world) :
  get_local_templates cfg TemplateTypes.kernel <> [] ->
  py_is kernel "latest" = false ->
  py_is depot "auto" = true ->
  (forall t, In t (get_local_templates cfg TemplateTypes.kernel) ->
             Identifier.version t <> chars kernel) ->
  new isabs abspath cfg kernel location depot w
    = (Raise Abort, after w [Echo (msg_none_exist (chars kernel))])
  /\ upgrade isabs abspath cfg kernel location depot w
    = (Raise Abort, after w [Echo (msg_none_exist (chars kernel))]).
Proof.
  intros Hne Hk Hauto Hnone.
  assert (Er : resolved_version (get_local_templates cfg TemplateTypes.kernel) kernel
               = chars kernel) by (unfold resolved_version; now rewrite Hk).
  rewrite <- Er. apply local_no_hosts; try assumption.
  unfold hosts. rewrite Er.
  assert (G : forall l : list Identifier.t,
             (forall t, In t l -> Identifier.version t <> chars kernel) ->
             filter (fun t => Identifier.version t =? chars kernel) l = []).
  { induction l as [|t l IH]; intros Hl; [reflexivity|]. simpl.
    destruct (String.eqb_spec (Identifier.version t) (chars kernel)) as [E|_].
    - exfalso. apply (Hl t); [now left|exact E].
    - apply IH. intros t0 Ht0. apply Hl. now right. }
  now apply G.
Qed.
End LocalRuns.

(** ** Removing depots *)

Lemma filter_none {A} (p : A -> bool) (l : list A) :
  (forall x, In x l -> p x = false) -> filter p l = [].
Proof.
  induction l as [|x l IH]; intros H; [reflexivity|]. simpl.
  rewrite (H x) by now left. apply IH. intros y Hy. apply H. now right.
Qed.

Lemma for_each_removal (l : list DepotConfig.t) (w : world) :
  exists w',
    for_each l (fun depot =>
                  echo ("Removing " ++ DepotConfig.name depot ++ " ("
                        ++ DepotConfig.location depot ++ ")") ;;
                  delete depot) w = (Ok tt, w')
    /\ trace w' = trace w ++ flat_map removal l
    /\ stdin w' = stdin w.
Proof.
  revert w. induction l as [|d l IH]; intros w; simpl.
  - exists w. now rewrite app_nil_r.
  - unfold bind at 1. unfold bind at 1. simpl.
    match goal with |- context [for_each l _ ?w0] => destruct (IH w0) as [w' [H [T S]]] end.
    exists w'. split; [exact H|]. split; [|exact S].
    rewrite T. simpl. now rewrite <- !app_assoc.
Qed.

(** X17. For a name other than purdueros-mainline, [rm-depot] succeeds
    whatever the registry holds: it announces and deletes the registered
    depots of that name, one after the other in the order of the registry,
    and no other; when no depot has that name it does nothing at all and
    reports no error. *)
Theorem remove_depot_removes (name : string) (w : world) :
  name <> "purdueros-mainline" ->
  exists w',
    remove_depot name w = (Ok tt, w')
    /\ trace w'
       = trace w ++ flat_map removal
                      (filter (fun d => DepotConfig.name d =? name) (depots w))
    /\ stdin w' = stdin w
    /\ ((forall d, In d (depots w) -> DepotConfig.name d <> name) -> w' = w).
Proof.
  intros Hn. unfold remove_depot. apply String.eqb_neq in Hn. rewrite Hn.
  erewrite bind_ok by reflexivity. erewrite bind_ok by reflexivity.
  destruct (for_each_removal (filter (fun d => DepotConfig.name d =? name) (depots w)) w)
    as [w' [H [T S]]].
  exists w'. split; [exact H|]. split; [exact T|]. split; [exact S|].
  intros Hnone.
  assert (E : filter (fun d => DepotConfig.name d =? name) (depots w) = []).
  { apply filter_none. intros d Hd. apply String.eqb_neq. now apply Hnone. }
  rewrite E in H. simpl in H. now injection H as <-.
Qed.

(** ** The name of a new depot *)

Section ValidateName.
Variables (isdir : string -> bool) (join : string -> string -> string).
Variable directory : string.

(** X18. The name check of [add-depot] protects the mainline depot only
    where it exists: when the directory of the name exists and the name is
    purdueros-mainline, the check fails with BadParameter without asking;
    when the directory does not exist, every name, purdueros-mainline
    included, is accepted without asking.  Whenever the check succeeds it
    returns the name it was given. *)
Theorem validate_name_protects (value : string) (w : world) :
  (isdir (join directory "purdueros-mainline") = true ->
   validate_name isdir join directory "purdueros-mainline" w
   = (Raise (BadParameter "Cannot override purdueros-mainline!"), w))
  /\ (isdir (join directory value) = false ->
      validate_name isdir join directory value w = (Ok value, w))
  /\ (forall value' w',
        validate_name isdir join directory value w = (Ok value', w') -> value' = value).
Proof.
  split; [|split].
  - intros E. unfold validate_name. rewrite E. reflexivity.
  - intros E. unfold validate_name. rewrite E. reflexivity.
  - intros value' w' H. unfold validate_name in H.
    apply bind_inv in H. destruct H as [[u [w1 [_ H]]]|[e [_ H]]]; [|discriminate H].
    now injection H as <- _.
Qed.

(** X19. When the directory of the name exists and the name is not
    purdueros-mainline, the check asks whether to overwrite, once: an
    answer y or yes (in any case, blanks around it aside) or the empty
    answer accepts the name, an answer n or no aborts. *)
Theorem validate_name_asks (value answer : string) (lines : list string) (w : world) :
  isdir (join directory value) = true ->
  value <> "purdueros-mainline" ->
  stdin w = answer :: lines ->
  let asked_once :=
    World (trace w ++ [Prompt (msg_overwrite value) "Y/n" ["y"; "yes"; "n"; "no"]])
          lines (depots w) in
  (In (strip (lower answer)) ["y"; "yes"; ""] ->
   validate_name isdir join directory value w = (Ok value, asked_once))
  /\ (In (strip (lower answer)) ["n"; "no"] ->
      validate_name isdir join directory value w = (Raise Abort, asked_once)).
Proof.
  intros E Hn Hin asked_once. subst asked_once.
  apply String.eqb_neq in Hn.
  assert (G : forall rv,
             read_confirm true (stdin w) = (Ok rv, lines) ->
             validate_name isdir join directory value w
             = (if rv then Ok value else Raise Abort,
                World (trace w ++ [Prompt (msg_overwrite value) "Y/n"
                                          ["y"; "yes"; "n"; "no"]])
                      lines (depots w))).
  { intros rv Hr. unfold validate_name, click_confirm. rewrite E, Hn.
    unfold bind, emit, ret, raise. simpl. rewrite Hr. now destruct rv. }
  split; intros Ha.
  - apply (G true). rewrite Hin. simpl read_confirm.
    destruct Ha as [<-|[<-|[<-|[]]]]; reflexivity.
  - apply (G false). rewrite Hin. simpl read_confirm.
    destruct Ha as [<-|[<-|[]]]; reflexivity.
Qed.
End ValidateName.

(** ** Several depots, one answer *)

Lemma select_version_keeps_input (name version : string) (listing : Listing)
    (w w1 : world) (r : result (Identifier.t * list TemplateDescriptor.t)) :
  select_version name version listing w = (r, w1) ->
  stdin w1 = stdin w /\ depots w1 = depots w.
Proof.
  intros H.
  assert (F : framed is_dialogue false (select_version name version listing))
    by (unfold select_version; framed_all).
  destruct (F _ _ _ H) as [D [I _]]. simpl in I. now split.
Qed.

Lemma ask_depot_named (identifier : Identifier.t) (descriptors : list TemplateDescriptor.t)
    (w : world) (answer : string) (lines : list string) :
  NoDup (map depot_name descriptors) ->
  stdin w = answer :: lines ->
  answer <> "" ->
  In answer (map depot_name descriptors) ->
  mem answer (map (fun '(i, n) => str i) (depot_table descriptors)) = false ->
  exists first d,
    hd_error (depot_table descriptors) = Some first
    /\ In d descriptors /\ depot_name d = answer
    /\ ask_depot identifier descriptors w
       = (Ok (Descriptor d),
          World (trace w ++ asking identifier descriptors first) lines (depots w)).
Proof.
  intros Hnd Hin Hne Hans Hnum.
  assert (Hsev : descriptors <> []) by (intros ->; destruct Hans).
  destruct (depot_table_first descriptors Hnd Hsev) as [first [rest E]].
  destruct (filter_single_depot answer descriptors Hnd Hans) as [d [Hf [Hd Hn]]].
  exists first, d. split; [now rewrite E|]. split; [exact Hd|]. split; [exact Hn|].
  rewrite (ask_depot_reads identifier descriptors Hnd w first rest E).
  erewrite bind_ok.
  2:{ cbn [after stdin]. rewrite Hin. cbn [read_choice].
      apply String.eqb_neq in Hne. rewrite Hne.
      rewrite (choice_of_name descriptors answer Hans). reflexivity. }
  cbv beta. rewrite Hnum, Hf. reflexivity.
Qed.

(** X20. A request in auto-depot mode whose resolved identifier is offered
    by several depots, without the automatic preference for the mainline
    depot applying (the name is not "kernel", or the mainline depot is not
    among them): [download] asks, and the answer that names one of these
    depots (and is not one of the numbers of the table) makes it download
    the identifier from that depot. *)
Theorem download_asks_by_name (cfg : Config) (name version : string) (no_check : bool)
    (n v : string) (i : Identifier.t) (ds : list TemplateDescriptor.t)
    (w w1 : world) (answer : string) (lines : list string) :
  normalize name version = (n, v) ->
  named n cfg <> [] ->
  select_version n v (named n cfg) (after w [Echo msg_fetching]) = (Ok (i, ds), w1) ->
  1 < length ds ->
  NoDup (map depot_name ds) ->
  n <> "kernel" \/ ~ In "purdueros-mainline" (map depot_name ds) ->
  stdin w = answer :: lines ->
  answer <> "" ->
  In answer (map depot_name ds) ->
  mem answer (map (fun '(k, _) => str k) (depot_table ds)) = false ->
  exists first d,
    hd_error (depot_table ds) = Some first
    /\ In d ds /\ depot_name d = answer
    /\ download cfg name version "auto" no_check w
       = (Ok tt,
          World (trace w1 ++ asking i ds first
                 ++ [Echo (msg_downloading (Identifier.name i) (Identifier.version i) answer
                            (DepotProvider.registrar (TemplateDescriptor.depot d)));
                     Download i (TemplateDescriptor.depot d)])
                lines (depots w)).
Proof.
  intros Hn Hne Hsel Hlen Hnd Hamb Hin Hans Hmem Hnum.
  destruct (select_version_keeps_input _ _ _ _ _ _ Hsel) as [Hs1 Hd1].
  simpl in Hs1, Hd1.
  assert (Hin1 : stdin w1 = answer :: lines) by congruence.
  destruct (ask_depot_named i ds w1 answer lines Hnd Hin1 Hans Hmem Hnum)
    as [first [d [Hfirst [Hd [Hname Hask]]]]].
  exists first, d. split; [exact Hfirst|]. split; [exact Hd|]. split; [exact Hname|].
  rewrite (download_checked _ _ _ _ _ n v); try assumption.
  2:{ rewrite String.eqb_refl, orb_true_r. reflexivity. }
  erewrite bind_ok.
  2:{ erewrite bind_ok by apply filter_depot_auto.
      erewrite bind_ok by exact Hsel. cbv beta iota.
      erewrite bind_ok; [reflexivity|].
      unfold select_descriptor.
      assert (E0 : (length ds =? 0)%nat = false) by (apply Nat.eqb_neq; lia).
      assert (E1 : (1 <? length ds)%nat = true) by (now apply Nat.ltb_lt).
      assert (E2 : (n =? "kernel") && ("auto" =? "auto")
                   && mem "purdueros-mainline" (map depot_name ds) = false).
      { destruct Hamb as [Hk|Hm].
        - apply String.eqb_neq in Hk. now rewrite Hk.
        - apply mem_false in Hm. rewrite Hm. apply andb_false_r. }
      rewrite E0, bind_when_false, E1, E2. exact Hask. }
  cbv beta iota. unfold getattr_depot.
  erewrite bind_ok by reflexivity.
  unfold bind, echo, emit. simpl.
  unfold depot_name in Hname. rewrite Hname, Hd1, <- !app_assoc. reflexivity.
Qed.

(** X21. An identifier that the listing holds without any descriptor: in
    auto-depot mode, when the resolved identifier has no descriptor,
    [download] prints that no templates were found with the requested
    version and aborts. *)
Theorem download_no_descriptor (cfg : Config) (name version : string)
    (no_check : bool) (n v : string) (i : Identifier.t) (w w1 : world) :
  normalize name version = (n, v) ->
  named n cfg <> [] ->
  select_version n v (named n cfg) (after w [Echo msg_fetching]) = (Ok (i, []), w1) ->
  download cfg name version "auto" no_check w
  = (Raise Abort, after w1 [Echo (msg_no_version n v)]).
Proof.
  intros Hn Hne Hsel.
  rewrite (download_checked _ _ _ _ _ n v); try assumption.
  2:{ rewrite String.eqb_refl, orb_true_r. reflexivity. }
  erewrite bind_raise; [reflexivity|].
  erewrite bind_ok by apply filter_depot_auto.
  erewrite bind_ok by exact Hsel. cbv beta iota.
  erewrite bind_raise; [reflexivity|].
  unfold select_descriptor. simpl length. simpl Nat.eqb. simpl when.
  erewrite bind_raise; [reflexivity|]. apply echo_abort.
Qed.

(** ** The properties above, on the sample catalogs *)

Lemma download_effects_witness :
  download (online_catalog scenario) "kernel" "latest" "auto" false (fresh [])
  = (Ok tt,
     after (fresh [])
       [Echo msg_fetching;
        Echo "Resolved kernel latest to kernel 1.1.0";
        Echo "Downloading kernel 1.1.0 from alt using github-releases";
        Download (Identifier.make "kernel" "1.1.0") (provider "alt")])
  /\ exists talk i d,
       forallb is_dialogue talk = true
       /\ [Echo msg_fetching;
           Echo "Resolved kernel latest to kernel 1.1.0";
           Echo "Downloading kernel 1.1.0 from alt using github-releases";
           Download (Identifier.make "kernel" "1.1.0") (provider "alt")]
          = talk ++ [Download i d].
Proof.
  assert (H : download (online_catalog scenario) "kernel" "latest" "auto" false (fresh [])
              = (Ok tt,
                 after (fresh [])
                   [Echo msg_fetching;
                    Echo "Resolved kernel latest to kernel 1.1.0";
                    Echo "Downloading kernel 1.1.0 from alt using github-releases";
                    Download (Identifier.make "kernel" "1.1.0") (provider "alt")]))
    by reflexivity.
  refine (conj H _).
  destruct (download_effects _ _ _ _ _ _ _ _ H) as [_ [_ [talk [F [i [d T]]]]]].
  exists talk, i, d. split; [exact F|exact T].
Defined.

Lemma download_sound_witness :
  normalize "kernel" "1.0.0" = ("kernel", "1.0.0")
  /\ ("1.0.0" = "latest" \/ "alt" = "auto" \/ false = false)
  /\ download (online_catalog scenario) "kernel" "1.0.0" "alt" false (fresh [])
     = (Ok tt,
        after (fresh [])
          [Echo msg_fetching;
           Echo "Downloading kernel 1.0.0 from alt using github-releases";
           Download (Identifier.make "kernel" "1.0.0") (provider "alt")])
  /\ exists i d,
       Identifier.name i = "kernel" /\ Identifier.version i = "1.0.0"
       /\ depot_name d = "alt".
Proof.
  assert (H1 : normalize "kernel" "1.0.0" = ("kernel", "1.0.0")) by reflexivity.
  assert (H2 : "1.0.0" = "latest" \/ "alt" = "auto" \/ false = false) by tauto.
  assert (H3 : download (online_catalog scenario) "kernel" "1.0.0" "alt" false (fresh [])
               = (Ok tt,
                  after (fresh [])
                    [Echo msg_fetching;
                     Echo "Downloading kernel 1.0.0 from alt using github-releases";
                     Download (Identifier.make "kernel" "1.0.0") (provider "alt")]))
    by reflexivity.
  refine (conj H1 (conj H2 (conj H3 _))).
  destruct (download_sound _ _ _ _ _ _ _ _ _ H1 H2 H3)
    as [i [ds [d [_ [_ [Hn [Hv [Hd _]]]]]]]].
  exists i, d. split; [exact Hn|]. split; [apply Hv|apply Hd]; discriminate.
Defined.

Lemma download_name_not_found_witness :
  normalize "libfoo" "latest" = ("libfoo", "latest")
  /\ ("latest" = "latest" \/ "auto" = "auto" \/ false = false)
  /\ (forall i ds,
        In (i, ds) (get_available_templates libraries (template_type "libfoo")) ->
        Identifier.name i <> "libfoo")
  /\ download libraries "libfoo" "latest" "auto" false (fresh [])
     = (Raise Abort,
        after (fresh []) [Echo msg_fetching; Echo (msg_no_name "libfoo")]).
Proof.
  assert (H1 : normalize "libfoo" "latest" = ("libfoo", "latest")) by reflexivity.
  assert (H2 : "latest" = "latest" \/ "auto" = "auto" \/ false = false) by tauto.
  assert (H3 : forall i ds,
             In (i, ds) (get_available_templates libraries (template_type "libfoo")) ->
             Identifier.name i <> "libfoo").
  { intros i ds [E|[]]. injection E as <- _. discriminate. }
  refine (conj H1 (conj H2 (conj H3 _))).
  exact (download_name_not_found libraries "libfoo" "latest" "auto" false
           "libfoo" "latest" (fresh []) H1 H2 H3).
Defined.

Lemma download_version_not_found_witness :
  normalize "kernel" "1.1.0" = ("kernel", "1.1.0")
  /\ "1.1.0" <> "latest"
  /\ ("purdueros-mainline" = "auto" \/ false = false)
  /\ named "kernel" (online_catalog scenario) <> []
  /\ ("purdueros-mainline" <> "auto" ->
      In "purdueros-mainline" (depot_names (named "kernel" (online_catalog scenario))))
  /\ (forall i ds,
        In (i, ds) (named "kernel" (online_catalog scenario)) ->
        Identifier.version i = "1.1.0" ->
        "purdueros-mainline" <> "auto" /\ ~ In "purdueros-mainline" (map depot_name ds))
  /\ download (online_catalog scenario) "kernel" "1.1.0" "purdueros-mainline" false
              (fresh [])
     = (Raise Abort,
        after (fresh []) [Echo msg_fetching; Echo (msg_no_version "kernel" "1.1.0")]).
Proof.
  assert (H1 : normalize "kernel" "1.1.0" = ("kernel", "1.1.0")) by reflexivity.
  assert (H2 : "1.1.0" <> "latest") by discriminate.
  assert (H3 : "purdueros-mainline" = "auto" \/ false = false) by tauto.
  assert (H4 : named "kernel" (online_catalog scenario) <> []) by discriminate.
  assert (H5 : "purdueros-mainline" <> "auto" ->
               In "purdueros-mainline"
                  (depot_names (named "kernel" (online_catalog scenario))))
    by (intros _; now left).
  assert (H6 : forall i ds,
             In (i, ds) (named "kernel" (online_catalog scenario)) ->
             Identifier.version i = "1.1.0" ->
             "purdueros-mainline" <> "auto"
             /\ ~ In "purdueros-mainline" (map depot_name ds)).
  { intros i ds [E|[E|[]]] Hv; injection E as <- <-; [discriminate Hv|].
    split; [discriminate|]. simpl. intuition discriminate. }
  refine (conj H1 (conj H2 (conj H3 (conj H4 (conj H5 (conj H6 _)))))).
  exact (download_version_not_found (online_catalog scenario) "kernel" "1.1.0"
           "purdueros-mainline" false "kernel" "1.1.0" (fresh []) H1 H2 H3 H4 H5 H6).
Defined.

Lemma download_explicit_witness :
  normalize "kernel" "1.0.0" = ("kernel", "1.0.0")
  /\ "1.0.0" <> "latest" /\ "alt" <> "auto"
  /\ In (Identifier.make "kernel" "1.0.0", [offer "purdueros-mainline"; offer "alt"])
        (named "kernel" (online_catalog scenario))
  /\ (forall i' ds', In (i', ds') (named "kernel" (online_catalog scenario)) ->
                     Identifier.version i' = "1.0.0" ->
                     (i', ds') = (Identifier.make "kernel" "1.0.0",
                                  [offer "purdueros-mainline"; offer "alt"]))
  /\ NoDup (map depot_name [offer "purdueros-mainline"; offer "alt"])
  /\ In (offer "alt") [offer "purdueros-mainline"; offer "alt"]
  /\ download (online_catalog scenario) "kernel" "1.0.0" "alt" false (fresh [])
     = (Ok tt,
        after (fresh [])
          [Echo msg_fetching;
           Echo "Downloading kernel 1.0.0 from alt using github-releases";
           Download (Identifier.make "kernel" "1.0.0") (provider "alt")]).
Proof.
  assert (H1 : normalize "kernel" "1.0.0" = ("kernel", "1.0.0")) by reflexivity.
  assert (H2 : "1.0.0" <> "latest") by discriminate.
  assert (H3 : "alt" <> "auto") by discriminate.
  assert (H4 : In (Identifier.make "kernel" "1.0.0",
                   [offer "purdueros-mainline"; offer "alt"])
                  (named "kernel" (online_catalog scenario))) by (now left).
  assert (H5 : forall i' ds', In (i', ds') (named "kernel" (online_catalog scenario)) ->
                              Identifier.version i' = "1.0.0" ->
                              (i', ds') = (Identifier.make "kernel" "1.0.0",
                                           [offer "purdueros-mainline"; offer "alt"])).
  { intros i' ds' [E|[E|[]]] Hv; [now symmetry|].
    injection E as <- <-. discriminate Hv. }
  assert (H6 : NoDup (map depot_name [offer "purdueros-mainline"; offer "alt"])).
  { repeat constructor; simpl; intuition discriminate. }
  assert (H7 : In (offer "alt") [offer "purdueros-mainline"; offer "alt"])
    by (right; now left).
  refine (conj H1 (conj H2 (conj H3 (conj H4 (conj H5 (conj H6 (conj H7 _))))))).
  exact (download_explicit (online_catalog scenario) "kernel" "1.0.0" "alt"
           "kernel" "1.0.0" (Identifier.make "kernel" "1.0.0")
           [offer "purdueros-mainline"; offer "alt"] (offer "alt") (fresh [])
           H1 H2 H3 H4 eq_refl H5 H6 H7 eq_refl).
Defined.

Lemma download_normalized_witness :
  normalize "latest" "kernel" = ("kernel", "latest")
  /\ download (online_catalog scenario) "latest" "kernel" "auto" false (fresh [])
     = download (online_catalog scenario) "kernel" "latest" "auto" false (fresh []).
Proof.
  assert (H1 : normalize "latest" "kernel" = ("kernel", "latest")) by reflexivity.
  refine (conj H1 _).
  exact (download_normalized (online_catalog scenario) "latest" "kernel" "auto" false
           "kernel" "latest" (fresh []) H1).
Defined.

Lemma download_unchecked_ignores_listing_witness :
  normalize "kernel" "1.0.0" = ("kernel", "1.0.0")
  /\ "1.0.0" <> "latest" /\ "alt" <> "auto"
  /\ download (online_catalog three_versions) "kernel" "1.0.0" "alt" true (fresh [])
     = (Ok tt,
        after (fresh [])
          [Echo "Downloading kernel 1.0.0 from alt using github-releases";
           Download (Identifier.make "kernel" "1.0.0") (provider "alt")])
  /\ download (online_catalog []) "kernel" "1.0.0" "alt" true (fresh [])
     = (Ok tt,
        after (fresh [])
          [Echo "Downloading kernel 1.0.0 from alt using github-releases";
           Download (Identifier.make "kernel" "1.0.0") (provider "alt")]).
Proof.
  assert (H1 : normalize "kernel" "1.0.0" = ("kernel", "1.0.0")) by reflexivity.
  assert (H2 : "1.0.0" <> "latest") by discriminate.
  assert (H3 : "alt" <> "auto") by discriminate.
  assert (H4 : download (online_catalog three_versions) "kernel" "1.0.0" "alt" true
                        (fresh [])
               = (Ok tt,
                  after (fresh [])
                    [Echo "Downloading kernel 1.0.0 from alt using github-releases";
                     Download (Identifier.make "kernel" "1.0.0") (provider "alt")]))
    by reflexivity.
  refine (conj H1 (conj H2 (conj H3 (conj H4 _)))).
  exact (proj1 (download_unchecked_ignores_listing (online_catalog three_versions)
                  (online_catalog []) "kernel" "1.0.0" "alt" "kernel" "1.0.0"
                  (fresh []) _ _ H1 H2 H3 H4)).
Defined.

Lemma local_sound_witness :
  (new posix_isabs posix_abspath (local_catalog stored_twice) (typed "1.0.0") "proj"
       (default "auto") (fresh [])
   = (Ok tt,
      after (fresh [])
        [Debug "Resolved depot auto to purdueros-mainline";
         Echo "Creating new project from 1.0.0 on purdueros-mainline at /home/user/proj";
         CreateProject (stored "1.0.0" "purdueros-mainline") "/home/user/proj"])
   \/ upgrade posix_isabs posix_abspath (local_catalog stored_twice) (typed "1.0.0") "proj"
        (default "auto") (fresh [])
      = (Ok tt,
         after (fresh [])
           [Debug "Resolved depot auto to purdueros-mainline";
            Echo "Creating new project from 1.0.0 on purdueros-mainline at /home/user/proj";
            CreateProject (stored "1.0.0" "purdueros-mainline") "/home/user/proj"]))
  /\ exists template,
       In template stored_twice
       /\ Identifier.version template = "1.0.0"
       /\ Identifier.depot_registrar template = Some "purdueros-mainline".
Proof.
  assert (H : new posix_isabs posix_abspath (local_catalog stored_twice) (typed "1.0.0")
                  "proj" (default "auto") (fresh [])
              = (Ok tt,
                 after (fresh [])
                   [Debug "Resolved depot auto to purdueros-mainline";
                    Echo "Creating new project from 1.0.0 on purdueros-mainline at /home/user/proj";
                    CreateProject (stored "1.0.0" "purdueros-mainline") "/home/user/proj"])
              \/ upgrade posix_isabs posix_abspath (local_catalog stored_twice)
                   (typed "1.0.0") "proj" (default "auto") (fresh [])
                 = (Ok tt,
                    after (fresh [])
                      [Debug "Resolved depot auto to purdueros-mainline";
                       Echo "Creating new project from 1.0.0 on purdueros-mainline at /home/user/proj";
                       CreateProject (stored "1.0.0" "purdueros-mainline")
                                     "/home/user/proj"]))
    by (left; reflexivity).
  refine (conj H _).
  destruct (local_sound _ _ _ _ _ _ _ _ H) as [_ [template [rest [before [_ [Hin [Hv [Hd _]]]]]]]].
  exists template. split; [exact Hin|]. split; [exact Hv|exact Hd].
Defined.

Lemma upgrade_mirrors_new_witness :
  new posix_isabs posix_abspath (local_catalog three_stored) (typed "1.2.0") "/proj"
      (default "auto") (fresh [])
  = (Ok tt,
     after (fresh [])
       [Debug "Resolved depot auto to purdueros-mainline";
        Echo "Creating new project from 1.2.0 on purdueros-mainline at /proj";
        CreateProject (stored "1.2.0" "purdueros-mainline") "/proj"])
  /\ exists said template dest,
       upgrade posix_isabs posix_abspath (local_catalog three_stored) (typed "1.2.0")
               "/proj" (default "auto") (fresh [])
       = (Ok tt, after (fresh []) (said ++ [UpgradeProject template dest])).
Proof.
  assert (H : new posix_isabs posix_abspath (local_catalog three_stored) (typed "1.2.0")
                  "/proj" (default "auto") (fresh [])
              = (Ok tt,
                 after (fresh [])
                   [Debug "Resolved depot auto to purdueros-mainline";
                    Echo "Creating new project from 1.2.0 on purdueros-mainline at /proj";
                    CreateProject (stored "1.2.0" "purdueros-mainline") "/proj"]))
    by reflexivity.
  refine (conj H _).
  destruct (upgrade_mirrors_new _ _ _ _ _ _ _ _ _ H) as [said [template [dest [_ Hup]]]].
  exists said, template, dest. exact Hup.
Defined.

Lemma local_version_not_stored_witness :
  get_local_templates (local_catalog three_stored) TemplateTypes.kernel <> []
  /\ py_is (typed "9.9.9") "latest" = false
  /\ py_is (default "auto") "auto" = true
  /\ (forall t, In t (get_local_templates (local_catalog three_stored) TemplateTypes.kernel) ->
                Identifier.version t <> chars (typed "9.9.9"))
  /\ new posix_isabs posix_abspath (local_catalog three_stored) (typed "9.9.9") "proj"
         (default "auto") (fresh [])
     = (Raise Abort, after (fresh []) [Echo (msg_none_exist "9.9.9")]).
Proof.
  assert (H1 : get_local_templates (local_catalog three_stored) TemplateTypes.kernel <> [])
    by discriminate.
  assert (H2 : py_is (typed "9.9.9") "latest" = false) by reflexivity.
  assert (H3 : py_is (default "auto") "auto" = true) by reflexivity.
  assert (H4 : forall t,
             In t (get_local_templates (local_catalog three_stored) TemplateTypes.kernel) ->
             Identifier.version t <> chars (typed "9.9.9")).
  { intros t [<-|[<-|[<-|[]]]]; discriminate. }
  refine (conj H1 (conj H2 (conj H3 (conj H4 _)))).
  exact (proj1 (local_version_not_stored posix_isabs posix_abspath
                  (local_catalog three_stored) (typed "9.9.9") "proj" (default "auto")
                  (fresh []) H1 H2 H3 H4)).
Defined.

Lemma remove_depot_removes_witness :
  "alt" <> "purdueros-mainline"
  /\ exists w',
       remove_depot "alt" (fresh []) = (Ok tt, w')
       /\ trace w'
          = [Echo "Removing alt (https://github.com/alt)";
             Delete (DepotConfig.Build "alt" "github-releases" "https://github.com/alt")].
Proof.
  assert (H1 : "alt" <> "purdueros-mainline") by discriminate.
  refine (conj H1 _).
  destruct (remove_depot_removes "alt" (fresh []) H1) as [w' [Hrun [Ht _]]].
  exists w'. split; [exact Hrun|exact Ht].
Defined.

Lemma validate_name_asks_witness :
  always (slash "/home/user/.pros" "alt") = true
  /\ "alt" <> "purdueros-mainline"
  /\ stdin (fresh ["Yes "]) = "Yes " :: []
  /\ In (strip (lower "Yes ")) ["y"; "yes"; ""]
  /\ validate_name always slash "/home/user/.pros" "alt" (fresh ["Yes "])
     = (Ok "alt",
        World [Prompt (msg_overwrite "alt") "Y/n" ["y"; "yes"; "n"; "no"]] []
              (depots (fresh []))).
Proof.
  assert (H1 : always (slash "/home/user/.pros" "alt") = true) by reflexivity.
  assert (H2 : "alt" <> "purdueros-mainline") by discriminate.
  assert (H3 : stdin (fresh ["Yes "]) = "Yes " :: []) by reflexivity.
  assert (H4 : In (strip (lower "Yes ")) ["y"; "yes"; ""]) by (right; now left).
  refine (conj H1 (conj H2 (conj H3 (conj H4 _)))).
  exact (proj1 (validate_name_asks always slash "/home/user/.pros" "alt" "Yes " []
                  (fresh ["Yes "]) H1 H2 H3) H4).
Defined.

Lemma download_asks_by_name_witness :
  normalize "kernel" "latest" = ("kernel", "latest")
  /\ named "kernel" (online_catalog two_depots) <> []
  /\ select_version "kernel" "latest" (named "kernel" (online_catalog two_depots))
                    (after (fresh ["zeta"]) [Echo msg_fetching])
     = (Ok (Identifier.make "kernel" "1.0.0", [offer "zeta"; offer "alpha"]),
        after (fresh ["zeta"])
          [Echo msg_fetching; Echo "Resolved kernel latest to kernel 1.0.0"])
  /\ 1 < length [offer "zeta"; offer "alpha"]
  /\ NoDup (map depot_name [offer "zeta"; offer "alpha"])
  /\ ("kernel" <> "kernel"
      \/ ~ In "purdueros-mainline" (map depot_name [offer "zeta"; offer "alpha"]))
  /\ stdin (fresh ["zeta"]) = "zeta" :: []
  /\ "zeta" <> ""
  /\ In "zeta" (map depot_name [offer "zeta"; offer "alpha"])
  /\ mem "zeta" (map (fun '(k, _) => str k) (depot_table [offer "zeta"; offer "alpha"]))
     = false
  /\ exists d,
       depot_name d = "zeta"
       /\ download (online_catalog two_depots) "kernel" "latest" "auto" false
                   (fresh ["zeta"])
          = (Ok tt,
             after (fresh [])
               [Echo msg_fetching;
                Echo "Resolved kernel latest to kernel 1.0.0";
                Echo "Multiple depots for kernel-1.0.0 were found. Please specify a depot: ";
                EchoTable [(1, "alpha"); (0, "zeta")] [""; "Depot"];
                Prompt "Which depot?" "alpha" ["1"; "0"; "alpha"; "zeta"];
                Echo (msg_downloading "kernel" "1.0.0" "zeta"
                        (DepotProvider.registrar (TemplateDescriptor.depot d)));
                Download (Identifier.make "kernel" "1.0.0") (TemplateDescriptor.depot d)]).
Proof.
  assert (H1 : normalize "kernel" "latest" = ("kernel", "latest")) by reflexivity.
  assert (H2 : named "kernel" (online_catalog two_depots) <> []) by discriminate.
  assert (H3 : select_version "kernel" "latest" (named "kernel" (online_catalog two_depots))
                              (after (fresh ["zeta"]) [Echo msg_fetching])
               = (Ok (Identifier.make "kernel" "1.0.0", [offer "zeta"; offer "alpha"]),
                  after (fresh ["zeta"])
                    [Echo msg_fetching; Echo "Resolved kernel latest to kernel 1.0.0"]))
    by reflexivity.
  assert (H4 : 1 < length [offer "zeta"; offer "alpha"]) by (simpl; lia).
  assert (H5 : NoDup (map depot_name [offer "zeta"; offer "alpha"])).
  { repeat constructor; simpl; intuition discriminate. }
  assert (H6 : "kernel" <> "kernel"
               \/ ~ In "purdueros-mainline" (map depot_name [offer "zeta"; offer "alpha"])).
  { right. simpl. intuition discriminate. }
  assert (H7 : stdin (fresh ["zeta"]) = "zeta" :: []) by reflexivity.
  assert (H8 : "zeta" <> "") by discriminate.
  assert (H9 : In "zeta" (map depot_name [offer "zeta"; offer "alpha"])) by (now left).
  assert (H10 : mem "zeta" (map (fun '(k, _) => str k)
                                (depot_table [offer "zeta"; offer "alpha"])) = false)
    by reflexivity.
  refine (conj H1 (conj H2 (conj H3 (conj H4 (conj H5 (conj H6 (conj H7
            (conj H8 (conj H9 (conj H10 _)))))))))).
  destruct (download_asks_by_name (online_catalog two_depots) "kernel" "latest" false
              "kernel" "latest" (Identifier.make "kernel" "1.0.0")
              [offer "zeta"; offer "alpha"] (fresh ["zeta"]) _ "zeta" []
              H1 H2 H3 H4 H5 H6 H7 H8 H9 H10)
    as [first [d [Hfirst [_ [Hname Hrun]]]]].
  exists d. split; [exact Hname|].
  injection Hfirst as <-. exact Hrun.
Defined.

Lemma download_no_descriptor_witness :
  normalize "kernel" "1.0.0" = ("kernel", "1.0.0")
  /\ named "kernel" (online_catalog orphan) <> []
  /\ select_version "kernel" "1.0.0" (named "kernel" (online_catalog orphan))
                    (after (fresh []) [Echo msg_fetching])
     = (Ok (Identifier.make "kernel" "1.0.0", []), after (fresh []) [Echo msg_fetching])
  /\ download (online_catalog orphan) "kernel" "1.0.0" "auto" false (fresh [])
     = (Raise Abort,
        after (fresh []) [Echo msg_fetching; Echo (msg_no_version "kernel" "1.0.0")]).
Proof.
  assert (H1 : normalize "kernel" "1.0.0" = ("kernel", "1.0.0")) by reflexivity.
  assert (H2 : named "kernel" (online_catalog orphan) <> []) by discriminate.
  assert (H3 : select_version "kernel" "1.0.0" (named "kernel" (online_catalog orphan))
                              (after (fresh []) [Echo msg_fetching])
               = (Ok (Identifier.make "kernel" "1.0.0", []),
                  after (fresh []) [Echo msg_fetching])) by reflexivity.
  refine (conj H1 (conj H2 (conj H3 _))).
  exact (download_no_descriptor (online_catalog orphan) "kernel" "1.0.0" false
           "kernel" "1.0.0" (Identifier.make "kernel" "1.0.0") (fresh []) _ H1 H2 H3).
Defined.
